(** * mailer: a shallow embedding of [mailer.py]

    The module wraps an IMAP session ([Mailer]), a named folder view
    ([MailBox]) and a parsed e-mail ([Message]).  Python integers are
    modelled by [Z], [str] and [bytes] by [string], exceptions by the
    inductive type [exn], and methods that touch the session or the file
    system by a state monad whose state survives a raised exception. *)

From Stdlib Require Import String Ascii List ZArith Lia Bool DecimalString.
Import ListNotations.

Local Open Scope string_scope.
Local Open Scope Z_scope.

(** ** Python strings *)

Module PyStr.

Definition bytes := string.

Definition sq : ascii := "'"%char.
Definition dq : ascii := "034"%char.
Definition backslash : ascii := "\"%char.

Definition of_char (c : ascii) : string := String c EmptyString.

(** [str(n)] for an integer. *)
Definition str_of_Z (z : Z) : string := NilZero.string_of_int (Z.to_int z).

Fixpoint has_char (c : ascii) (s : string) : bool :=
  match s with
  | EmptyString => false
  | String d s' => Ascii.eqb c d || has_char c s'
  end.

(** [s.replace(c, '')] for a one-character pattern. *)
Fixpoint remove_char (c : ascii) (s : string) : string :=
  match s with
  | EmptyString => EmptyString
  | String d s' =>
      if Ascii.eqb c d then remove_char c s' else String d (remove_char c s')
  end.

(** [s.split(sep)] for a non-empty separator: the text is scanned from the
    left, [skip] counts the characters of a matched separator that are still
    to be dropped and [cur] is the piece being collected. *)
Fixpoint split_go (sep s : string) (skip : nat) (cur : string) : list string :=
  match s with
  | EmptyString => [cur]
  | String c s' =>
      match skip with
      | S k => split_go sep s' k cur
      | O =>
          if String.prefix sep s
          then cur :: split_go sep s' (String.length sep - 1) EmptyString
          else split_go sep s' 0 (cur ++ of_char c)
      end
  end.

Definition split (sep s : string) : list string := split_go sep s 0 EmptyString.

(** [s.split(sep)[0]] and [s.split(sep)[-1]]. *)
Definition split_first (sep s : string) : string := hd EmptyString (split sep s).
Definition split_last (sep s : string) : string := last (split sep s) EmptyString.

(** [s[1:]] *)
Definition drop_first (s : string) : string :=
  match s with
  | EmptyString => EmptyString
  | String _ s' => s'
  end.

Definition lower_char (c : ascii) : ascii :=
  let n := nat_of_ascii c in
  if (Nat.leb 65 n && Nat.leb n 90)%bool then ascii_of_nat (n + 32) else c.

(** [s.lower()] on ASCII text. *)
Fixpoint lower (s : string) : string :=
  match s with
  | EmptyString => EmptyString
  | String c s' => String (lower_char c) (lower s')
  end.

Fixpoint ends_with_char (c : ascii) (s : string) : bool :=
  match s with
  | EmptyString => false
  | String d EmptyString => Ascii.eqb c d
  | String _ s' => ends_with_char c s'
  end.

Definition hex_digit (n : nat) : ascii :=
  if Nat.ltb n 10 then ascii_of_nat (48 + n) else ascii_of_nat (87 + n).

Definition escape_char (q c : ascii) : string :=
  let n := nat_of_ascii c in
  if Ascii.eqb c backslash then String backslash (of_char backslash)
  else if Ascii.eqb c q then String backslash (of_char q)
  else if Nat.eqb n 10 then String backslash "n"
  else if Nat.eqb n 13 then String backslash "r"
  else if Nat.eqb n 9 then String backslash "t"
  else if (Nat.ltb n 32 || Nat.eqb n 127)%bool
       then String backslash
              (String "x" (String (hex_digit (Nat.div n 16))
                                  (of_char (hex_digit (Nat.modulo n 16)))))
  else of_char c.

Fixpoint escape (q : ascii) (s : string) : string :=
  match s with
  | EmptyString => EmptyString
  | String c s' => escape_char q c ++ escape q s'
  end.

(** [repr(s)] of a [str]: single quotes unless the text holds a single
    quote and no double quote. *)
Definition repr_str (s : string) : string :=
  let q := if (has_char sq s && negb (has_char dq s))%bool then dq else sq in
  String q (escape q s ++ of_char q).

Fixpoint join (sep : string) (l : list string) : string :=
  match l with
  | [] => EmptyString
  | [x] => x
  | x :: tl => x ++ sep ++ join sep tl
  end.

(** [str(l)] of a list whose items are rendered by [show]. *)
Definition str_list {A} (show : A -> string) (l : list A) : string :=
  "[" ++ join ", " (map show l) ++ "]".

Definition mem (s : string) (l : list string) : bool :=
  existsb (String.eqb s) l.

End PyStr.
Import PyStr.

(** ** Exceptions and the state monad *)

Inductive exn :=
| ValueError (msg : string)
| KeyError (msg : string)
| NameError (name : string)
| AttributeError (msg : string)
| TypeError (msg : string)
| IndexError (msg : string)
| ZeroDivisionError
| UnicodeDecodeError
| OSError (path : string)
| RecursionError
| IMAP4_error (msg : string)
| IMAP4_abort
(* behaviour of a library call that lies outside this model *)
| Unmodelled (what : string).

Inductive outcome (A : Type) :=
| Ok (a : A)
| Raise (e : exn).
Arguments Ok {A} a.
Arguments Raise {A} e.

(** A computation over a state [S]; the state reached when an exception is
    raised is kept, as the mutations of a Python object are. *)
Definition M (S A : Type) : Type := S -> outcome A * S.

Definition ret {S A} (a : A) : M S A := fun s => (Ok a, s).
Definition raise {S A} (e : exn) : M S A := fun s => (Raise e, s).
Definition bind {S A B} (c : M S A) (k : A -> M S B) : M S B :=
  fun s => match c s with
           | (Ok a, s') => k a s'
           | (Raise e, s') => (Raise e, s')
           end.
Definition lift {S A} (o : outcome A) : M S A := fun s => (o, s).

Definition obind {A B} (o : outcome A) (k : A -> outcome B) : outcome B :=
  match o with
  | Ok a => k a
  | Raise e => Raise e
  end.

Declare Scope py_scope.
Delimit Scope py_scope with py.
Notation "x <- c ;; k" := (bind c (fun x => k))
  (at level 100, c at next level, right associativity) : py_scope.
Notation "c ;; k" := (bind c (fun _ => k))
  (at level 100, right associativity) : py_scope.
Notation "'let?' x := c 'in' k" := (obind c (fun x => k))
  (at level 100, x name, c at next level, right associativity) : py_scope.
Local Open Scope py_scope.

(** ** Names bound at module level

    [mailer.py] binds the names below: its [import] statements, the names
    exported by [from typing import *] and its three classes.  A free name of
    a method body is looked up here when the method runs. *)

Definition typing_all : list string :=
  ["Annotated"; "Any"; "Callable"; "ClassVar"; "Concatenate"; "Final";
   "ForwardRef"; "Generic"; "Literal"; "Optional"; "ParamSpec"; "Protocol";
   "Tuple"; "Type"; "TypeVar"; "TypeVarTuple"; "Union"; "AbstractSet";
   "ByteString"; "Container"; "ContextManager"; "Hashable"; "ItemsView";
   "Iterable"; "Iterator"; "KeysView"; "Mapping"; "MappingView";
   "MutableMapping"; "MutableSequence"; "MutableSet"; "Sequence"; "Sized";
   "ValuesView"; "Awaitable"; "AsyncIterator"; "AsyncIterable"; "Coroutine";
   "Collection"; "AsyncGenerator"; "AsyncContextManager"; "Reversible";
   "SupportsAbs"; "SupportsBytes"; "SupportsComplex"; "SupportsFloat";
   "SupportsIndex"; "SupportsInt"; "SupportsRound"; "ChainMap"; "Counter";
   "Deque"; "Dict"; "DefaultDict"; "List"; "OrderedDict"; "Set"; "FrozenSet";
   "NamedTuple"; "TypedDict"; "Generator"; "BinaryIO"; "IO"; "Match";
   "Pattern"; "TextIO"; "AnyStr"; "assert_type"; "assert_never"; "cast";
   "clear_overloads"; "dataclass_transform"; "final"; "get_args";
   "get_origin"; "get_overloads"; "get_type_hints"; "is_typeddict";
   "LiteralString"; "Never"; "NewType"; "no_type_check";
   "no_type_check_decorator"; "NoReturn"; "NotRequired"; "overload";
   "ParamSpecArgs"; "ParamSpecKwargs"; "Required"; "reveal_type";
   "runtime_checkable"; "Self"; "Text"; "TYPE_CHECKING"; "TypeAlias";
   "TypeGuard"; "Unpack"].

Definition module_globals : list string :=
  typing_all
  ++ ["imaplib"; "email"; "os"; "time"; "socket"; "default";
      "parsedate_to_datetime"; "Message"; "MailBox"; "Mailer"].

(** Loading a module-level name: [NameError] when nothing bound it. *)
Definition load_global (name : string) : outcome unit :=
  if mem name module_globals then Ok tt else Raise (NameError name).

(** ** Library functions the module calls

    The date parser, the UTF-8 decoder, [repr] of a [bytes] object and the
    JSON encoder belong to the Python library; the development is
    parametric in them. *)

Inductive plain :=
| PDict (kv : list (string * string))
| PList (items : list (list (string * string))).

Class Runtime := {
  datetime : Type;
  (* email.utils.parsedate_to_datetime on a header value (None when the
     header is missing); the result None stands for its ValueError *)
  parsedate_to_datetime : option string -> option datetime;
  (* the text of that ValueError *)
  parsedate_error : option string -> string;
  (* str(d) of a datetime *)
  str_datetime : datetime -> string;
  (* b.decode('utf-8'); None stands for UnicodeDecodeError *)
  decode_utf8 : bytes -> option string;
  (* repr(b) of a bytes object *)
  repr_bytes : bytes -> string;
  (* json.dumps(value, indent=...) *)
  json_dumps : plain -> option Z -> string
}.

(** ** Parsed e-mail payloads

    [email.message_from_bytes(raw, policy=default)] is the library's MIME
    parser; a fetched payload is modelled by what the parser yields: the
    headers the module reads and either one payload or a list of leaf
    parts. *)

Record Part := {
  content_type : string;
  part_filename : option string;
  part_payload : bytes
}.

Inductive Content :=
| Single (payload : bytes)
| Multipart (parts : list Part).

Record EmailMessage := {
  hdr_message_id : option string;
  hdr_from : option string;
  hdr_to : option string;
  hdr_subject : option string;
  hdr_date : option string;
  hdr_received : option string;
  content : Content
}.

Section WithRuntime.
Context {R : Runtime}.

(** ** Message *)

Record Message := {
  m_id : option string;
  m_From : option string;
  m_To : option string;
  m_subject : option string;
  m_date_sent : datetime;
  m_date_received : datetime;
  m_body : option string;
  m_attachments : list (string * bytes);
  m_mailbox_name : option string
}.

(** [self.keys], assigned by the constructor of every instance. *)
Definition keys : list string :=
  ["id"; "From"; "To"; "subject"; "date_sent"; "date_received";
   "attachments"; "body"].

Definition decode (b : bytes) : outcome string :=
  match decode_utf8 b with
  | Some s => Ok s
  | None => Raise UnicodeDecodeError
  end.

(** The first part whose content type is [text/plain], if any. *)
Fixpoint first_plain (ps : list Part) : outcome (option string) :=
  match ps with
  | [] => Ok None
  | p :: tl =>
      if String.eqb (content_type p) "text/plain"
      then let? s := decode (part_payload p) in Ok (Some s)
      else first_plain tl
  end.

Definition _get_body (msg : EmailMessage) : outcome (option string) :=
  match content msg with
  | Multipart ps => first_plain ps
  | Single b => let? s := decode b in Ok (Some s)
  end.

(** [if filename:] holds for a filename that is present and not empty. *)
Definition truthy (o : option string) : option string :=
  match o with
  | Some EmptyString => None
  | _ => o
  end.

Fixpoint named_parts (ps : list Part) : list (string * bytes) :=
  match ps with
  | [] => []
  | p :: tl =>
      match truthy (part_filename p) with
      | Some filename => (filename, part_payload p) :: named_parts tl
      | None => named_parts tl
      end
  end.

Definition _get_attachments (msg : EmailMessage) : list (string * bytes) :=
  match content msg with
  | Multipart ps => named_parts ps
  | Single _ => []
  end.

Definition parse_date (h : option string) : outcome datetime :=
  match parsedate_to_datetime h with
  | Some d => Ok d
  | None => Raise (ValueError (parsedate_error h))
  end.

(** [Message.__init__(raw_email, mailbox)] *)
Definition Message_init (raw : EmailMessage) (mailbox : option string)
  : outcome Message :=
  let? sent := parse_date (hdr_date raw) in
  let? received :=
    match hdr_received raw with
    | None => Raise (AttributeError "'NoneType' object has no attribute 'split'")
    | Some r => parse_date (Some (split_last ";" (split_last "; " r)))
    end in
  let? b := _get_body raw in
  Ok {| m_id := hdr_message_id raw;
        m_From := hdr_from raw;
        m_To := hdr_to raw;
        m_subject := hdr_subject raw;
        m_date_sent := sent;
        m_date_received := received;
        m_body := b;
        m_attachments := _get_attachments raw;
        m_mailbox_name := truthy mailbox |}.

(** Attribute values reachable through [__getitem__]. *)
Inductive value :=
| VNone
| VStr (s : string)
| VDatetime (d : datetime)
| VAttachments (l : list (string * bytes)).

Definition of_opt (o : option string) : value :=
  match o with
  | Some s => VStr s
  | None => VNone
  end.

Definition getattr (self : Message) (name : string) : outcome value :=
  if String.eqb name "id" then Ok (of_opt (m_id self))
  else if String.eqb name "From" then Ok (of_opt (m_From self))
  else if String.eqb name "To" then Ok (of_opt (m_To self))
  else if String.eqb name "subject" then Ok (of_opt (m_subject self))
  else if String.eqb name "date_sent" then Ok (VDatetime (m_date_sent self))
  else if String.eqb name "date_received"
       then Ok (VDatetime (m_date_received self))
  else if String.eqb name "attachments"
       then Ok (VAttachments (m_attachments self))
  else if String.eqb name "body" then Ok (of_opt (m_body self))
  else if String.eqb name "mailbox_name" then Ok (of_opt (m_mailbox_name self))
  else Raise (AttributeError name).

(** [Message.__getitem__(i)] *)
Definition Message_getitem (self : Message) (i : string) : outcome value :=
  if mem i keys then getattr self i
  else Raise (KeyError ("Message has only "
                          ++ str_of_Z (Z.of_nat (List.length keys))
                          ++ " allowed keys: " ++ str_list repr_str keys)).

(** [str(v)] *)
Definition py_str (v : value) : string :=
  match v with
  | VNone => "None"
  | VStr s => s
  | VDatetime d => str_datetime d
  | VAttachments l =>
      str_list (fun a => "[" ++ repr_str (fst a) ++ ", "
                             ++ repr_bytes (snd a) ++ "]") l
  end.

Fixpoint serialize_keys (self : Message) (ks : list string)
  : outcome (list (string * string)) :=
  match ks with
  | [] => Ok []
  | key :: tl =>
      let? v := Message_getitem self key in
      let? rest := serialize_keys self tl in
      Ok ((key, py_str v) :: rest)
  end.

(** [Message.serialize()] *)
Definition Message_serialize (self : Message) : outcome (list (string * string)) :=
  serialize_keys self keys.

(** [not indent] *)
Definition falsy (indent : option Z) : bool :=
  match indent with
  | None => true
  | Some i => Z.eqb i 0
  end.

(** [json.dumps(d) if not indent else json.dumps(d, indent=indent)], the
    name [json] being loaded before the argument is evaluated. *)
Definition dumps_of {A} (serialize : outcome A) (wrap : A -> plain)
    (indent : option Z) : outcome string :=
  let? _ := load_global "json" in
  let? d := serialize in
  Ok (json_dumps (wrap d) (if falsy indent then None else indent)).

(** [Message.json(indent)] *)
Definition Message_json (self : Message) (indent : option Z) : outcome string :=
  dumps_of (Message_serialize self) PDict indent.

(** ** Saving attachments *)

(** The file system: [fs_writable path] tells whether [open(path, 'wb')]
    succeeds (the directory exists and may be written); [fs_files] holds the
    content of the files written so far, the latest first. *)
Record filesystem := {
  fs_writable : string -> bool;
  fs_files : list (string * bytes)
}.

(** [open(path, 'wb').write(data)] *)
Definition write_file (path : string) (data : bytes) : M filesystem unit :=
  fun fs =>
    if fs_writable fs path
    then (Ok tt,
          {| fs_writable := fs_writable fs;
             fs_files := (path, data)
                           :: filter (fun e => negb (String.eqb (fst e) path))
                                     (fs_files fs) |})
    else (Raise (OSError path), fs).

Definition read_file (fs : filesystem) (path : string) : option bytes :=
  option_map snd (find (fun e => String.eqb (fst e) path) (fs_files fs)).

(** [os.path.join(a, b)] on a POSIX system. *)
Definition path_join (a b : string) : string :=
  if String.prefix "/" b then b
  else if (String.eqb a EmptyString || ends_with_char "/" a)%bool then a ++ b
  else a ++ "/" ++ b.

Fixpoint lookup_kw (name : string) (kw : list (string * string)) : option string :=
  match kw with
  | [] => None
  | (k, v) :: tl => if String.eqb k name then Some v else lookup_kw name tl
  end.

(** Scanner states of [str.format]: in literal text, just after an opening
    or a closing brace, or inside the name of a replacement field. *)
Inductive fmt_state :=
| FText
| FOpen
| FClose
| FField (name : string).

Definition is_digit (c : ascii) : bool :=
  let n := nat_of_ascii c in (Nat.leb 48 n && Nat.leb n 57)%bool.

Fixpoint all_digits (s : string) : bool :=
  match s with
  | EmptyString => true
  | String c s' => is_digit c && all_digits s'
  end.

(** The number a text of decimal digits writes, [acc] being the number
    read so far. *)
Fixpoint digits_value (acc : Z) (s : string) : Z :=
  match s with
  | EmptyString => acc
  | String c s' => digits_value (10 * acc + Z.of_nat (nat_of_ascii c - 48)) s'
  end.

(** The largest index a field may write ([sys.maxsize] of a 64-bit
    build). *)
Definition max_index : Z := 9223372036854775807.

(** The value a replacement field names.  The call passes keyword
    arguments only, so an empty field or one made of digits, which asks
    for a positional argument, finds none. *)
Definition field_value (name : string) (kw : list (string * string))
  : outcome string :=
  if all_digits name
  then if digits_value 0 name <=? max_index
       then Raise (IndexError
                     ("Replacement index " ++ str_of_Z (digits_value 0 name)
                        ++ " out of range for positional args tuple"))
       else Raise (ValueError "Too many decimal digits in format string")
  else match lookup_kw name kw with
       | Some v => Ok v
       | None => Raise (KeyError name)
       end.

(** [str.format] with string-valued keyword arguments only: literal text,
    the escapes [{{] and [}}], and replacement fields that are plain names.
    Conversions, format specifications and attribute or index access inside
    a field are outside the model. *)
Fixpoint format_go (kw : list (string * string)) (st : fmt_state) (s : string)
  : outcome string :=
  match s with
  | EmptyString =>
      match st with
      | FText => Ok EmptyString
      | FOpen => Raise (ValueError "Single '{' encountered in format string")
      | FClose => Raise (ValueError "Single '}' encountered in format string")
      | FField _ => Raise (ValueError "expected '}' before end of string")
      end
  | String c s' =>
      match st with
      | FText =>
          if Ascii.eqb c "{" then format_go kw FOpen s'
          else if Ascii.eqb c "}" then format_go kw FClose s'
          else let? rest := format_go kw FText s' in Ok (String c rest)
      | FOpen =>
          if Ascii.eqb c "{"
          then let? rest := format_go kw FText s' in Ok (String "{" rest)
          else if Ascii.eqb c "}"
          then let? v := field_value EmptyString kw in
               let? rest := format_go kw FText s' in Ok (v ++ rest)
          else if (Ascii.eqb c "!" || Ascii.eqb c ":" || Ascii.eqb c "."
                   || Ascii.eqb c "[")%bool
          then Raise (Unmodelled "replacement field with a conversion or format")
          else format_go kw (FField (of_char c)) s'
      | FClose =>
          if Ascii.eqb c "}"
          then let? rest := format_go kw FText s' in Ok (String "}" rest)
          else Raise (ValueError "Single '}' encountered in format string")
      | FField name =>
          if Ascii.eqb c "}"
          then let? v := field_value name kw in
               let? rest := format_go kw FText s' in Ok (v ++ rest)
          else if Ascii.eqb c "{"
          then Raise (ValueError "unexpected '{' in field name")
          else if (Ascii.eqb c "!" || Ascii.eqb c ":" || Ascii.eqb c "."
                   || Ascii.eqb c "[")%bool
          then Raise (Unmodelled "replacement field with a conversion or format")
          else format_go kw (FField (name ++ of_char c)) s'
      end
  end.

(** The first keyword of [format_kwargs] that the call already passes. *)
Definition repeated_keyword (format_kwargs : list (string * string))
  : option string :=
  find (fun k => String.eqb k "short_id" || String.eqb k "name")
       (map fst format_kwargs).

(** The call of [name_format.format] with the keywords [short_id], [name]
    and those of [format_kwargs]: a keyword given twice is a [TypeError]. *)
Definition format_name (name_format short_id name : string)
    (format_kwargs : list (string * string)) : outcome string :=
  match repeated_keyword format_kwargs with
  | Some k =>
      Raise (TypeError
               ("str.format() got multiple values for keyword argument '"
                  ++ k ++ "'"))
  | None =>
      format_go (("short_id", short_id) :: ("name", name) :: format_kwargs)
                FText name_format
  end.

(** [self.id.split("@")[0][1:]] *)
Definition short_id (self : Message) : outcome string :=
  match m_id self with
  | Some i => Ok (drop_first (split_first "@" i))
  | None => Raise (AttributeError "'NoneType' object has no attribute 'split'")
  end.

Fixpoint save_each (self : Message) (directory name_format : string)
    (format_kwargs : list (string * string)) (atts : list (string * bytes))
  : M filesystem (list string) :=
  match atts with
  | [] => ret []
  | (filename, file_data) :: tl =>
      sid <- lift (short_id self) ;;
      new_file_name <- lift (format_name name_format sid filename format_kwargs) ;;
      write_file (path_join directory new_file_name) file_data ;;
      rest <- save_each self directory name_format format_kwargs tl ;;
      ret (new_file_name :: rest)
  end.

(** [Message.save_attachments(directory, name_format, format_kwargs)] *)
Definition save_attachments (self : Message) (directory name_format : string)
    (format_kwargs : list (string * string)) : M filesystem (list string) :=
  save_each self directory name_format format_kwargs (m_attachments self).

Definition default_name_format : string := "{short_id}_{name}".

End WithRuntime.

(** ** The IMAP server and the session

    The IMAP client ([imaplib.IMAP4_SSL]) and the server behind it are the
    environment of the module.  A server holds folders; [fd_line] is the
    text of the LIST response line of a folder and [fd_name] the name SELECT
    accepts.  [srv_refuses] names the commands the server answers with
    [NO]. *)

Inductive command := LOGIN | LIST | SELECT | SEARCH | FETCH.

Record Folder := {
  fd_name : string;
  fd_line : string;
  fd_msgs : list EmailMessage
}.

Record Server := {
  srv_folders : list Folder;
  srv_refuses : command -> bool
}.

(** What the next attempt to open a connection meets: an address that does
    not resolve, or a session that serves [lifetime] commands before the
    server drops it ([None]: it is never dropped). *)
Inductive dial :=
| Unreachable
| Connects (lifetime : option nat).

(** A [Mailer] is its own connection (the class extends the client):
    [selected] is the folder the session has selected, [ttl] the number of
    commands the session still serves. *)
Record Mailer := {
  username : string;
  password : string;
  default_box : string;
  host : string;
  port : Z;
  selected : option string;
  ttl : option nat
}.

Definition set_selected (o : option string) (m : Mailer) : Mailer :=
  {| username := username m; password := password m;
     default_box := default_box m; host := host m; port := port m;
     selected := o; ttl := ttl m |}.

Definition set_ttl (t : option nat) (m : Mailer) : Mailer :=
  {| username := username m; password := password m;
     default_box := default_box m; host := host m; port := port m;
     selected := selected m; ttl := t |}.

(** The state a method runs in: the object it is called on and the
    connection attempts still to come. *)
Record env := {
  self : Mailer;
  dials : list dial
}.

Definition on_self (f : Mailer -> Mailer) (e : env) : env :=
  {| self := f (self e); dials := dials e |}.

(** One entry of a FETCH response as the client returns it: the tuple of an
    envelope and the literal it announces, or a plain [bytes] object. *)
Inductive fetch_item :=
| Literal (seq : Z) (payload : EmailMessage)
| Trailer (text : bytes).

(** The message set of a FETCH: [str(msg_id)] or [f'{start}:{end}']. *)
Inductive message_set :=
| Seq (n : Z)
| SeqRange (a b : Z).

Definition find_folder (srv : Server) (name : string) : option Folder :=
  find (fun f => String.eqb (fd_name f) name) (srv_folders srv).

Fixpoint numbered (k : Z) (l : list EmailMessage) : list (Z * EmailMessage) :=
  match l with
  | [] => []
  | x :: tl => (k, x) :: numbered (k + 1) tl
  end.

(** The messages numbered [lo] to [hi] of a folder, with their numbers. *)
Definition messages_between (msgs : list EmailMessage) (lo hi : Z)
  : list (Z * EmailMessage) :=
  numbered lo (firstn (Z.to_nat (hi - lo + 1)) (skipn (Z.to_nat (lo - 1)) msgs)).

(** The client returns, for every fetched message, the tuple holding its
    literal and then the [bytes] object that closes the response. *)
Fixpoint fetch_items (l : list (Z * EmailMessage)) : list fetch_item :=
  match l with
  | [] => []
  | (k, raw) :: tl => Literal k raw :: Trailer ")" :: fetch_items tl
  end.

Definition set_bounds (s : message_set) : Z * Z :=
  match s with
  | Seq n => (n, n)
  | SeqRange a b => (Z.min a b, Z.max a b)
  end.

Section Session.
Variable srv : Server.

(** Every command uses up one unit of the session's lifetime; on a dropped
    session the client raises [IMAP4.abort]. *)
Definition tick : M env unit :=
  fun e =>
    match ttl (self e) with
    | None => (Ok tt, e)
    | Some O => (Raise IMAP4_abort, e)
    | Some (S k) => (Ok tt, on_self (set_ttl (Some k)) e)
    end.

(** SEARCH and FETCH are legal in the selected state only. *)
Definition need_selected (name : string) : M env Folder :=
  fun e =>
    match selected (self e) with
    | Some f =>
        match find_folder srv f with
        | Some fd => (Ok fd, e)
        | None => (Raise (IMAP4_error (name ++ " illegal in state AUTH")), e)
        end
    | None => (Raise (IMAP4_error (name ++ " illegal in state AUTH")), e)
    end.

(** [self.login(user, password)] *)
Definition cmd_login : M env unit :=
  tick ;;
  if srv_refuses srv LOGIN then raise (IMAP4_error "LOGIN failed") else ret tt.

(** The lines of a LIST response, [[None]] when the server sent none. *)
Definition list_lines : list (option string) :=
  match srv_folders srv with
  | [] => [None]
  | fs => map (fun f => Some (fd_line f)) fs
  end.

(** [self.list()]: the status and the response lines. *)
Definition cmd_list : M env (string * list (option string)) :=
  tick ;;
  if srv_refuses srv LIST then ret ("NO", [Some "LIST failed"])
  else ret ("OK", list_lines).

(** [self.select(mailbox)]: a refused SELECT leaves no folder selected. *)
Definition cmd_select (mailbox : string) : M env string :=
  tick ;;
  fun e =>
    match find_folder srv mailbox with
    | Some _ =>
        if srv_refuses srv SELECT
        then (Ok "NO", on_self (set_selected None) e)
        else (Ok "OK", on_self (set_selected (Some mailbox)) e)
    | None => (Ok "NO", on_self (set_selected None) e)
    end.

(** [self.search(None, 'ALL')]: the sequence numbers of the selected folder
    ([data[0]] holds them in decimal, separated by blanks). *)
Definition cmd_search_all : M env (string * list Z) :=
  fd <- need_selected "SEARCH" ;;
  tick ;;
  if srv_refuses srv SEARCH then ret ("NO", [])
  else ret ("OK", map fst (numbered 1 (fd_msgs fd))).

(** [self.fetch(message_set, '(RFC822)')]: a set that names a number
    outside [1..count] is answered with [BAD], which the client raises. *)
Definition cmd_fetch (s : message_set) : M env (string * list fetch_item) :=
  fd <- need_selected "FETCH" ;;
  tick ;;
  if srv_refuses srv FETCH then ret ("NO", [Trailer "FETCH failed"])
  else
    let (lo, hi) := set_bounds s in
    if (1 <=? lo) && (hi <=? Z.of_nat (List.length (fd_msgs fd)))
    then ret ("OK", fetch_items (messages_between (fd_msgs fd) lo hi))
    else raise (IMAP4_error "FETCH command error: BAD").

End Session.

(** ** Mailer and MailBox *)

(** What [Mailer.messages] returns: the sequence numbers, or the status text
    of a refused search. *)
Inductive search_result :=
| Ids (l : list Z)
| Status (rv : string).

(** [len(self.messages)] *)
Definition len (r : search_result) : Z :=
  match r with
  | Ids l => Z.of_nat (List.length l)
  | Status rv => Z.of_nat (String.length rv)
  end.

Section Methods.
Context {R : Runtime}.
Variable srv : Server.

(** What [get_message] and [slice_messages] return. *)
Inductive fetched :=
| GotMessage (m : Message)
| GotMessages (l : list Message)
| GotStatus (rv : string).

(** [try: body except imaplib.IMAP4.abort: handler] *)
Definition try_abort {A} (body handler : M env A) : M env A :=
  fun e =>
    match body e with
    | (Raise IMAP4_abort, e') => handler e'
    | r => r
    end.

(** Running a method on another [Mailer]: its session changes, [self] does
    not. *)
Definition on {A} (other : Mailer) (k : M env A) : M env A :=
  fun e =>
    let (r, e') := k {| self := other; dials := dials e |} in
    (r, {| self := self e; dials := dials e' |}).

Definition next_dial (ds : list dial) : dial * list dial :=
  match ds with
  | [] => (Connects None, [])
  | d :: tl => (d, tl)
  end.

(** [Mailer.__init__]: connect, log in, check the default folder against
    [self.mailboxes] and select it.  [mailboxes] is the method
    [get_mailboxes] of the object under construction. *)
Definition Mailer_init (mailboxes : M env (list string))
    (username password host : string) (port : Z) (default_box : string)
  : list dial -> outcome Mailer * list dial :=
  fun ds =>
    match next_dial ds with
    | (Unreachable, ds') =>
        (Raise (ValueError ("Can not connect to host with port: "
                              ++ host ++ ":" ++ str_of_Z port)), ds')
    | (Connects l, ds') =>
        let fresh := {| username := username; password := password;
                        default_box := default_box; host := host;
                        port := port; selected := None; ttl := l |} in
        let (r, e) :=
          (cmd_login srv ;;
           boxes <- mailboxes ;;
           if mem default_box boxes
           then cmd_select srv default_box ;; ret tt
           else raise (ValueError
                         ("Typed invalid mailbox name as default_box kwarg: "
                            ++ default_box)))
            {| self := fresh; dials := ds' |} in
        match r with
        | Ok _ => (Ok (self e), dials e)
        | Raise x => (Raise x, dials e)
        end
    end.

(** [self.copy()] *)
Definition copy (mailboxes : M env (list string)) : M env Mailer :=
  fun e =>
    let m := self e in
    let (r, ds) := Mailer_init mailboxes (username m) (password m) (host m)
                               (port m) (default_box m) (dials e) in
    (r, {| self := m; dials := ds |}).

(** The folder name of a LIST line:
    [line.decode().replace(dq, '').split(' | ')[-1].split(' / ')[-1]]. *)
Definition leaf_name (line : string) : string :=
  split_last " / " (split_last " | " (remove_char dq line)).

Fixpoint leaf_names (lines : list (option string)) : outcome (list string) :=
  match lines with
  | [] => Ok []
  | None :: _ =>
      Raise (AttributeError "'NoneType' object has no attribute 'decode'")
  | Some line :: tl =>
      let? rest := leaf_names tl in Ok (leaf_name line :: rest)
  end.

(** [Mailer.get_mailboxes()]; [fuel] bounds the depth of the calls on fresh
    copies, as the interpreter's recursion limit does. *)
Fixpoint get_mailboxes (fuel : nat) : M env (list string) :=
  try_abort
    (r <- cmd_list srv ;;
     if String.eqb (fst r) "OK" then lift (leaf_names (snd r)) else ret [])
    match fuel with
    | O => raise RecursionError
    | S f => other <- copy (get_mailboxes f) ;; on other (get_mailboxes f)
    end.

(** The property [Mailer.messages]; its handler builds the copy and then
    loads the name [mailbox_name], which nothing binds. *)
Definition messages (fuel : nat) : M env search_result :=
  try_abort
    (r <- cmd_search_all srv ;;
     if String.eqb (fst r) "OK" then ret (Ids (snd r)) else ret (Status (fst r)))
    match fuel with
    | O => raise RecursionError
    | S f =>
        copy (get_mailboxes f) ;;
        lift (load_global "mailbox_name") ;;
        raise (Unmodelled "call with an unbound argument")
    end.

Definition select_default : M env string :=
  fun e => cmd_select srv (default_box (self e)) e.

(** [Mailer.get_messages(mailbox_name)] *)
Fixpoint get_messages (fuel : nat) (mailbox_name : string) : M env search_result :=
  try_abort
    (boxes <- get_mailboxes fuel ;;
     if mem mailbox_name boxes
     then
       cmd_select srv mailbox_name ;;
       msgs <- messages fuel ;;
       select_default ;;
       ret msgs
     else
       raise (ValueError
                ("Mailer.messages method takes a string mailbox name, "
                   ++ "that exists in list from Mailer.get_mailboxes() method")))
    match fuel with
    | O => raise RecursionError
    | S f => other <- copy (get_mailboxes f) ;; on other (get_messages f mailbox_name)
    end.

(** The [else] branch of [get_message] and [slice_messages]: the f-string
    of the error text loads the name [method_name], which nothing binds,
    before the [ValueError] is built. *)
Definition invalid_mailbox {A} : M env A :=
  lift (load_global "method_name") ;;
  fun e =>
    (Raise (ValueError
              (" requires a string mailbox name as a key or an integer "
                 ++ "message index in " ++ default_box (self e)
                 ++ ", that exists in list from Mailer.get_mailboxes() method")),
     e).

(** [Message(data[0][1], mailbox=mailbox_name)] *)
Definition message_of_first (data : list fetch_item) (mailbox_name : string)
  : outcome Message :=
  match data with
  | [] => Raise (IndexError "list index out of range")
  | Literal _ raw :: _ => Message_init raw (Some mailbox_name)
  | Trailer t :: _ =>
      if Nat.leb (String.length t) 1
      then Raise (IndexError "index out of range")
      else Raise (AttributeError "'int' object has no attribute 'decode'")
  end.

(** A method body that rebinds its arguments runs on the session together
    with those local variables [L], so that the handler of
    [except imaplib.IMAP4.abort] sees the values they hold when the session
    is dropped. *)
Definition in_env {L A} (c : M env A) : M (env * L) A :=
  fun s => let (r, e') := c (fst s) in (r, (e', snd s)).

Definition load {L} : M (env * L) L := fun s => (Ok (snd s), s).

Definition store {L} (l : L) : M (env * L) unit := fun s => (Ok tt, (fst s, l)).

Definition try_abort_locals {L A} (init : L) (body : M (env * L) A)
    (handler : L -> M env A) : M env A :=
  fun e =>
    match body (e, init) with
    | (Raise IMAP4_abort, s) => handler (snd s) (fst s)
    | (r, s) => (r, fst s)
    end.

(** [Mailer.get_message(msg_id, mailbox_name)] *)
Fixpoint get_message (fuel : nat) (msg_id : Z) (mailbox_name : string)
  : M env fetched :=
  try_abort_locals msg_id
    (boxes <- in_env (get_mailboxes fuel) ;;
     if mem mailbox_name boxes
     then
       in_env (cmd_select srv mailbox_name) ;;
       n <- load ;;
       (if n <=? 0
        then ms <- in_env (messages fuel) ;; store (n + len ms)
        else ret tt) ;;
       n <- load ;;
       r <- in_env (cmd_fetch srv (Seq n)) ;;
       if String.eqb (fst r) "OK"
       then m <- lift (message_of_first (snd r) mailbox_name) ;; ret (GotMessage m)
       else in_env select_default ;; ret (GotStatus (fst r))
     else in_env invalid_mailbox)
    (fun msg_id =>
       match fuel with
       | O => raise RecursionError
       | S f =>
           other <- copy (get_mailboxes f) ;;
           on other (get_message f msg_id mailbox_name)
       end).

(** The comprehension of [slice_messages]: [i] is the position of the entry
    in the fetched list; an entry is kept when it is a tuple (whose second
    component is the literal) and [i % step == 0]. *)
Fixpoint keep_stride (mailbox_name : string) (step i : Z) (data : list fetch_item)
  : outcome (list Message) :=
  match data with
  | [] => Ok []
  | Literal _ raw :: tl =>
      if step =? 0 then Raise ZeroDivisionError
      else if i mod step =? 0
      then let? m := Message_init raw (Some mailbox_name) in
           let? rest := keep_stride mailbox_name step (i + 1) tl in
           Ok (m :: rest)
      else keep_stride mailbox_name step (i + 1) tl
  | Trailer _ :: tl => keep_stride mailbox_name step (i + 1) tl
  end.

(** A bound of a slice is [None] when the slice leaves it out, and then its
    comparison with [0] is a [TypeError]. *)
Definition bound {S} (b : option Z) : M S Z :=
  match b with
  | Some z => ret z
  | None => raise (TypeError
                     "'<=' not supported between instances of 'NoneType' and 'int'")
  end.

(** [if b <= 0: b += len(self.messages)] for a bound [b]. *)
Definition from_end (fuel : nat) (b : option Z) : M env Z :=
  n <- bound b ;;
  if n <=? 0 then (ms <- messages fuel ;; ret (n + len ms)) else ret n.

(** [Mailer.slice_messages(start, end, mailbox_name, step)]; the locals are
    [start] and [end]. *)
Fixpoint slice_messages (fuel : nat) (start stop : option Z)
    (mailbox_name : string) (step : Z) : M env fetched :=
  try_abort_locals (start, stop)
    (boxes <- in_env (get_mailboxes fuel) ;;
     if mem mailbox_name boxes
     then
       in_env (cmd_select srv mailbox_name) ;;
       a <- in_env (from_end fuel start) ;;
       store (Some a, stop) ;;
       b <- in_env (from_end fuel stop) ;;
       store (Some a, Some b) ;;
       let a := Z.max 1 a in
       store (Some a, Some b) ;;
       ms <- in_env (messages fuel) ;;
       let b := Z.min (len ms) b in
       store (Some a, Some b) ;;
       r <- in_env (cmd_fetch srv (SeqRange a b)) ;;
       if String.eqb (fst r) "OK"
       then l <- lift (keep_stride mailbox_name step 0 (snd r)) ;;
            ret (GotMessages l)
       else in_env select_default ;; ret (GotStatus (fst r))
     else in_env invalid_mailbox)
    (fun locals =>
       match fuel with
       | O => raise RecursionError
       | S f =>
           other <- copy (get_mailboxes f) ;;
           on other (slice_messages f (fst locals) (snd locals) mailbox_name step)
       end).

(** ** Indexing *)

(** The keys [Mailer.__getitem__] and [MailBox.__getitem__] tell apart. *)
Inductive key :=
| KStr (s : string)
| KSlice (start stop step : option Z)
| KInt (i : Z)
| KOther.

(** What indexing returns; a [MailBox] is known by its folder name, its
    mailer being the object that was indexed. *)
Inductive item :=
| IMailBox (name : string)
| IFetched (f : fetched)
| INone.

Definition step_or_1 (step : option Z) : Z :=
  match step with
  | Some z => z
  | None => 1
  end.

(** [MailBox.__getitem__(msg_id)] *)
Definition MailBox_getitem (fuel : nat) (name : string) (msg_id : key) : M env item :=
  match msg_id with
  | KInt i => f <- get_message fuel i name ;; ret (IFetched f)
  | KSlice start stop step =>
      f <- slice_messages fuel start stop name (step_or_1 step) ;;
      ret (IFetched f)
  | _ => ret INone
  end.

Definition err_text (default_box : string) : string :=
  "Mailer.__geitem__ requires a string mailbox name as a key or an integer "
    ++ "message index in " ++ default_box
    ++ ", that exists in list from Mailer.get_mailboxes() method".

(** [Mailer.__getitem__(mailbox)] *)
Definition Mailer_getitem (fuel : nat) (mailbox : key) : M env item :=
  fun e =>
    let box := default_box (self e) in
    match mailbox with
    | KStr s =>
        let s := if String.eqb (lower s) "inbox" then "INBOX" else s in
        (boxes <- get_mailboxes fuel ;;
         if mem s boxes then ret (IMailBox s)
         else raise (KeyError (err_text box))) e
    | KSlice start stop step =>
        (f <- slice_messages fuel start stop box (step_or_1 step) ;;
         ret (IFetched f)) e
    | KInt _ => MailBox_getitem fuel box mailbox e
    | KOther => (Raise (ValueError (err_text box)), e)
    end.

(** ** Serialization of a mailer and of a folder *)

(** The objects a comprehension over [self.messages] meets: the integers of
    a list of sequence numbers, or the characters of a status text. *)
Inductive pyobj :=
| OInt (z : Z)
| OStr (s : string)
| OMessage (m : Message).

Definition iter (r : search_result) : list pyobj :=
  match r with
  | Ids l => map OInt l
  | Status rv => map (fun c => OStr (of_char c)) (list_ascii_of_string rv)
  end.

(** [msg.serialize()], the method being looked up on the object. *)
Definition call_serialize (msg : pyobj) : outcome (list (string * string)) :=
  match msg with
  | OMessage m => Message_serialize m
  | OInt _ => Raise (AttributeError "'int' object has no attribute 'serialize'")
  | OStr _ => Raise (AttributeError "'str' object has no attribute 'serialize'")
  end.

Fixpoint serialize_each (l : list pyobj) : outcome (list (list (string * string))) :=
  match l with
  | [] => Ok []
  | msg :: tl =>
      let? d := call_serialize msg in
      let? rest := serialize_each tl in
      Ok (d :: rest)
  end.

(** [Mailer.serialize()] *)
Definition Mailer_serialize (fuel : nat) : M env (list (list (string * string))) :=
  ms <- messages fuel ;;
  lift (serialize_each (iter ms)).

(** [MailBox.messages] and [MailBox.serialize()] for the folder [name]. *)
Definition MailBox_messages (fuel : nat) (name : string) : M env search_result :=
  get_messages fuel name.

Definition MailBox_serialize (fuel : nat) (name : string)
  : M env (list (list (string * string))) :=
  ms <- MailBox_messages fuel name ;;
  lift (serialize_each (iter ms)).

(** [json.dumps(self.serialize()) if not indent else ...] of a mailer or a
    folder: the name [json] is loaded before [serialize] is called. *)
Definition dumps_list (serialize : M env (list (list (string * string))))
    (indent : option Z) : M env string :=
  lift (load_global "json") ;;
  d <- serialize ;;
  ret (json_dumps (PList d) (if falsy indent then None else indent)).

Definition Mailer_json (fuel : nat) (indent : option Z) : M env string :=
  dumps_list (Mailer_serialize fuel) indent.

Definition MailBox_json (fuel : nat) (name : string) (indent : option Z)
  : M env string :=
  dumps_list (MailBox_serialize fuel name) indent.

End Methods.

(** ** Vocabulary of the properties *)

(** A session that the server never drops. *)

Definition stable (e : env) : Prop := ttl (self e) = None.

(** What [get_mailboxes] yields on a live session. *)
Definition listing {R : Runtime} (srv : Server) : outcome (list string) :=
  if srv_refuses srv LIST then Ok []
  else leaf_names (list_lines srv).

(** The folder a SELECT of [name] leaves selected. *)
Definition chosen (srv : Server) (name : string) : option string :=
  match find_folder srv name with
  | Some _ => if srv_refuses srv SELECT then None else Some name
  | None => None
  end.

Definition select_in (o : option string) (e : env) : env :=
  on_self (set_selected o) e.

(** The sequence numbers of a folder with [n] messages. *)
Definition numbers (msgs : list EmailMessage) : list Z :=
  map fst (numbered 1 msgs).

(** What [Mailer.messages] yields with the folder [fd] selected. *)
Definition search_of (srv : Server) (fd : Folder) : search_result :=
  if srv_refuses srv SEARCH then Status "NO" else Ids (numbers (fd_msgs fd)).

Definition got {R : Runtime} (o : outcome Message) : outcome fetched :=
  match o with
  | Ok m => Ok (GotMessage m)
  | Raise x => Raise x
  end.

Definition gots {R : Runtime} (o : outcome (list Message)) : outcome fetched :=
  match o with
  | Ok l => Ok (GotMessages l)
  | Raise x => Raise x
  end.

(** [n] after [if n <= 0: n += len(self.messages)] with [fd] selected. *)
Definition resolved (srv : Server) (fd : Folder) (n : Z) : Z :=
  if n <=? 0 then n + len (search_of srv fd) else n.

Definition count (fd : Folder) : Z := Z.of_nat (List.length (fd_msgs fd)).

(** The messages numbered [a] to [b] of a folder. *)
Definition between (msgs : list EmailMessage) (a b : Z) : list EmailMessage :=
  firstn (Z.to_nat (b - a + 1)) (skipn (Z.to_nat (a - 1)) msgs).

(** The position, in the list a FETCH returns, of the tuple of the [k]-th
    message of the fetched range ([k] counted from 0): every message takes
    two entries, its tuple and the closing [bytes] object. *)
Definition position_in_fetched (k : nat) : Z := 2 * Z.of_nat k.

(** The messages kept when the tuple of the first one sits at position
    [pos] of the fetched list. *)
Fixpoint stride_from {R : Runtime} (step pos : Z) (ms : list Message)
  : list Message :=
  match ms with
  | [] => []
  | m :: tl =>
      if pos mod step =? 0 then m :: stride_from step (pos + 2) tl
      else stride_from step (pos + 2) tl
  end.

(** The messages of [ms] whose position in the fetched list is a multiple
    of [step], in order. *)
Definition at_stride {R : Runtime} (step : Z) (ms : list Message) : list Message :=
  map snd
      (filter (fun p => position_in_fetched (fst p) mod step =? 0)
              (combine (seq 0 (List.length ms)) ms)).

(** The payloads [raws] parse, for the folder [f], to the messages [ms]. *)
Definition parsed {R : Runtime} (f : string) (raws : list EmailMessage)
    (ms : list Message) : Prop :=
  Forall2 (fun raw m => Message_init raw (Some f) = Ok m) raws ms.

(** The server answers SELECT, SEARCH and FETCH. *)
Definition serves (srv : Server) : Prop :=
  srv_refuses srv SELECT = false
  /\ srv_refuses srv SEARCH = false
  /\ srv_refuses srv FETCH = false.

(** The file system after the attachments [atts] of a message were
    written, one after the other, under the names [name a]. *)
Definition written (directory : string) (name : string * bytes -> string)
    (atts : list (string * bytes)) (fs : filesystem) : filesystem :=
  fold_left (fun fs a => snd (write_file (path_join directory (name a)) (snd a) fs))
            atts fs.

(** ** Renderings of a message *)

Definition nl : string := String "010"%char EmptyString.

Section Renderings.
Context {R : Runtime}.

(** [{x}] inside an f-string, for an attribute that may be [None]. *)
Definition fstr (o : option string) : string := py_str (of_opt o).

(** The lines both renderings start with. *)
Definition format_head (self : Message) : string :=
  "-----" ++ nl
  ++ "MAILBOX: " ++ fstr (m_mailbox_name self) ++ ";" ++ nl
  ++ "=====" ++ nl
  ++ "FROM: " ++ fstr (m_From self) ++ "; TO: " ++ fstr (m_To self) ++ nl
  ++ "========" ++ nl
  ++ "Subject: " ++ fstr (m_subject self) ++ nl.

(** [Message.format_long()] *)
Definition format_long (self : Message) : string :=
  let res := format_head self in
  let res :=
    match truthy (m_body self) with
    | Some body => res ++ "========" ++ nl ++ body ++ nl
    | None => res
    end in
  res ++ "-----".

(** [Message.format_short()] *)
Definition format_short (self : Message) : string :=
  let res := format_head self in
  let res :=
    match truthy (m_body self) with
    | Some body =>
        res ++ "========" ++ nl ++ "Body: text "
            ++ str_of_Z (Z.of_nat (String.length body))
            ++ " symbols at Message.body" ++ nl
    | None => res
    end in
  res ++ "-----" ++ nl.

(** [Message.__str__()] *)
Definition Message_str (self : Message) : string := format_short self.

(** [Message.__repr__()]: [len(self.body)] is taken whatever the body. *)
Definition Message_repr (self : Message) : outcome string :=
  match m_body self with
  | None => Raise (TypeError "object of type 'NoneType' has no len()")
  | Some body =>
      Ok ("Message(" ++ fstr (m_mailbox_name self) ++ ", "
            ++ fstr (m_From self) ++ " -> " ++ fstr (m_To self) ++ ", "
            ++ of_char dq ++ fstr (m_subject self) ++ of_char dq
            ++ ", body " ++ str_of_Z (Z.of_nat (String.length body))
            ++ " symbols, "
            ++ str_of_Z (Z.of_nat (List.length (m_attachments self)))
            ++ " attachments)")
  end.

End Renderings.

(** ** More of Mailer and MailBox *)

Section MoreMethods.
Context {R : Runtime}.
Variable srv : Server.

(** The call [Mailer(username, password, host, port, default_box)]. *)
Definition Mailer_new (fuel : nat) (username password host : string)
    (port : Z) (default_box : string) : list dial -> outcome Mailer * list dial :=
  Mailer_init srv (get_mailboxes srv fuel) username password host port default_box.

(** [MailBox.__len__()] *)
Definition MailBox_len (fuel : nat) (name : string) : M env Z :=
  ms <- MailBox_messages srv fuel name ;;
  ret (len ms).

(** [MailBox.__str__()] *)
Definition MailBox_str (fuel : nat) (name : string) : M env string :=
  n <- MailBox_len fuel name ;;
  ret ("MailBox_" ++ name ++ "(" ++ str_of_Z n ++ " messages)").

(** The constructors of [__init__.py]; [default_box] is ['inbox'] when the
    caller leaves it out. *)
Definition or_inbox (default_box : option string) : string :=
  match default_box with
  | Some b => b
  | None => "inbox"
  end.

Definition yandexMailer (fuel : nat) (username password : string)
    (default_box : option string) : list dial -> outcome Mailer * list dial :=
  Mailer_new fuel username password "imap.yandex.com" 993 (or_inbox default_box).

Definition mailruMailer (fuel : nat) (username password : string)
    (default_box : option string) : list dial -> outcome Mailer * list dial :=
  Mailer_new fuel username password "imap.mail.ru" 993 (or_inbox default_box).

Definition gmailMailer (fuel : nat) (username password : string)
    (default_box : option string) : list dial -> outcome Mailer * list dial :=
  Mailer_new fuel username password "imap.gmail.com" 993 (or_inbox default_box).

End MoreMethods.

(** ** More vocabulary *)

(** Does [sep] occur in [s]? *)
Fixpoint occurs (sep s : string) : bool :=
  match s with
  | EmptyString => String.prefix sep EmptyString
  | String _ s' => String.prefix sep s || occurs sep s'
  end.

(** The numbers [k], [k + 1], ... of [n] messages. *)
Fixpoint upto (k : Z) (n : nat) : list Z :=
  match n with
  | O => []
  | S n' => k :: upto (k + 1) n'
  end.

(** Every [step]-th message of a list, the first one included. *)
Definition every_nth {R : Runtime} (step : Z) (ms : list Message) : list Message :=
  map snd
      (filter (fun p => Z.of_nat (fst p) mod step =? 0)
              (combine (seq 0 (List.length ms)) ms)).

(** A session the server has dropped. *)
Definition dropped (e : env) : Prop := ttl (self e) = Some O.

(** The mailer a successful construction returns on a connection that is
    never dropped. *)
Definition constructed (srv : Server) (username password host : string)
    (port : Z) (default_box : string) : Mailer :=
  {| username := username; password := password; default_box := default_box;
     host := host; port := port;
     selected := chosen srv default_box; ttl := None |}.

(** ** A sample runtime and a sample account

    Dates are kept as their header text, every byte string decodes to
    itself and JSON objects are written on one line. *)

Module Sample.

Definition quoted (s : string) : string := String dq (s ++ of_char dq).

Definition dumps_dict (kv : list (string * string)) : string :=
  "{" ++ join ", " (map (fun p => quoted (fst p) ++ ": " ++ quoted (snd p)) kv) ++ "}".

Definition dumps (v : plain) (indent : option Z) : string :=
  match v with
  | PDict kv => dumps_dict kv
  | PList items => "[" ++ join ", " (map dumps_dict items) ++ "]"
  end.

#[global] Instance runtime : Runtime := {|
  datetime := string;
  parsedate_to_datetime := fun h => h;
  parsedate_error := fun h =>
    "Invalid date value or format "
      ++ quoted match h with
                | Some s => s
                | None => "None"
                end;
  str_datetime := fun d => d;
  decode_utf8 := fun b => Some b;
  repr_bytes := fun b => String "b" (repr_str b);
  json_dumps := dumps
|}.

(** A plain-text mail whose Message-ID is built from [tag]. *)
Definition mail (tag : string) : EmailMessage :=
  {| hdr_message_id := Some ("<" ++ tag ++ "@mail.example>");
     hdr_from := Some "alice@mail.example";
     hdr_to := Some "bob@mail.example";
     hdr_subject := Some ("subject " ++ tag);
     hdr_date := Some "Mon, 01 Jan 2024 10:00:00 +0000";
     hdr_received := Some "from a by b; Mon, 01 Jan 2024 10:00:05 +0000";
     content := Single ("body " ++ tag) |}.

(** A mail that carries the attachment [report.pdf]. *)
Definition report_mail : EmailMessage :=
  {| hdr_message_id := Some "<abc123@mail.example>";
     hdr_from := Some "alice@mail.example";
     hdr_to := Some "bob@mail.example";
     hdr_subject := Some "report";
     hdr_date := Some "Mon, 01 Jan 2024 10:00:00 +0000";
     hdr_received := Some "from a by b; Mon, 01 Jan 2024 10:00:05 +0000";
     content := Multipart
       [ {| content_type := "text/plain"; part_filename := None;
            part_payload := "see attachment" |};
         {| content_type := "application/pdf";
            part_filename := Some "report.pdf";
            part_payload := "%PDF-1.4" |} ] |}.

(** The message [report_mail] parses to when fetched from INBOX. *)
Definition report_message : Message :=
  {| m_id := Some "<abc123@mail.example>";
     m_From := Some "alice@mail.example";
     m_To := Some "bob@mail.example";
     m_subject := Some "report";
     m_date_sent := "Mon, 01 Jan 2024 10:00:00 +0000";
     m_date_received := "Mon, 01 Jan 2024 10:00:05 +0000";
     m_body := Some "see attachment";
     m_attachments := [("report.pdf", "%PDF-1.4")];
     m_mailbox_name := Some "INBOX" |}.

Definition line_of (name : string) : string :=
  "(\HasNoChildren) " ++ quoted "/" ++ " " ++ quoted name.

Definition folder (name : string) (msgs : list EmailMessage) : Folder :=
  {| fd_name := name; fd_line := line_of name; fd_msgs := msgs |}.

Definition ten : list EmailMessage :=
  map mail ["m1"; "m2"; "m3"; "m4"; "m5"; "m6"; "m7"; "m8"; "m9"; "m10"].

(** An account with ten mails in INBOX and four in Work. *)
Definition server : Server :=
  {| srv_folders := [folder "INBOX" ten;
                     folder "Work" (map mail ["w1"; "w2"; "w3"; "w4"])];
     srv_refuses := fun _ => false |}.

(** The same account when the server refuses FETCH. *)
Definition server_no_fetch : Server :=
  {| srv_folders := srv_folders server;
     srv_refuses := fun c => match c with FETCH => true | _ => false end |}.

(** A mailer on a session that is never dropped, INBOX selected. *)
Definition mailer : Mailer :=
  {| username := "bob"; password := "secret"; default_box := "INBOX";
     host := "imap.mail.example"; port := 993;
     selected := Some "INBOX"; ttl := None |}.

Definition start : env := {| self := mailer; dials := [] |}.

Definition disk : filesystem :=
  {| fs_writable := fun p => String.prefix "/tmp/out/" p; fs_files := [] |}.

End Sample.

(** ** More sample data *)

Module Cases.

(** A multipart mail with an attachment and no plain-text part. *)
Definition html_mail : EmailMessage :=
  {| hdr_message_id := Some "<html1@mail.example>";
     hdr_from := Some "alice@mail.example";
     hdr_to := Some "bob@mail.example";
     hdr_subject := Some "newsletter";
     hdr_date := Some "Tue, 02 Jan 2024 08:00:00 +0000";
     hdr_received := Some "from a by b; Tue, 02 Jan 2024 08:00:03 +0000";
     content := Multipart
       [ {| content_type := "text/html"; part_filename := None;
            part_payload := "<p>hello</p>" |};
         {| content_type := "image/png"; part_filename := Some "logo.png";
            part_payload := "PNG1" |};
         {| content_type := "image/png"; part_filename := Some "logo.png";
            part_payload := "PNG2" |} ] |}.

(** The message [html_mail] parses to when fetched from INBOX. *)
Definition html_message : Message :=
  {| m_id := Some "<html1@mail.example>";
     m_From := Some "alice@mail.example";
     m_To := Some "bob@mail.example";
     m_subject := Some "newsletter";
     m_date_sent := "Tue, 02 Jan 2024 08:00:00 +0000";
     m_date_received := "Tue, 02 Jan 2024 08:00:03 +0000";
     m_body := None;
     m_attachments := [("logo.png", "PNG1"); ("logo.png", "PNG2")];
     m_mailbox_name := Some "INBOX" |}.

(** A mail without a Received header. *)
Definition local_mail : EmailMessage :=
  {| hdr_message_id := Some "<draft@mail.example>";
     hdr_from := Some "bob@mail.example";
     hdr_to := Some "alice@mail.example";
     hdr_subject := Some "draft";
     hdr_date := Some "Tue, 02 Jan 2024 09:00:00 +0000";
     hdr_received := None;
     content := Single "draft text" |}.

(** The LIST line of a server whose hierarchy delimiter is a dot. *)
Definition dotted_line : string :=
  "(\HasNoChildren) " ++ Sample.quoted "." ++ " " ++ Sample.quoted "INBOX".

(** The sample account when the server refuses SEARCH. *)
Definition server_no_search : Server :=
  {| srv_folders := srv_folders Sample.server;
     srv_refuses := fun c => match c with SEARCH => true | _ => false end |}.

(** The sample account when the server refuses LIST. *)
Definition server_no_list : Server :=
  {| srv_folders := srv_folders Sample.server;
     srv_refuses := fun c => match c with LIST => true | _ => false end |}.

(** The sample account when the server refuses SELECT. *)
Definition server_no_select : Server :=
  {| srv_folders := srv_folders Sample.server;
     srv_refuses := fun c => match c with SELECT => true | _ => false end |}.

(** The sample mailer after the server dropped its session, with two
    connections that will succeed. *)
Definition after_drop : env :=
  {| self := set_ttl (Some O) Sample.mailer;
     dials := [Connects None; Connects None] |}.

(** A disk on which only [/tmp/out/abc123_a.txt] may be written. *)
Definition small_disk : filesystem :=
  {| fs_writable := fun p => String.eqb p "/tmp/out/abc123_a.txt";
     fs_files := [] |}.

End Cases.

(** * Properties *)

(** ** Runs on a session that is not dropped *)

Ltac reduce_run :=
  repeat progress (cbv beta iota; cbn [fst snd String.eqb Ascii.eqb Bool.eqb]).

Section StableRuns.
Context {R : Runtime}.
Variable srv : Server.

Lemma stable_select_in o e : stable e -> stable (select_in o e).
Proof. unfold stable; intro H; exact H. Qed.

Lemma select_in_twice o1 o2 e : select_in o2 (select_in o1 e) = select_in o2 e.
Proof. reflexivity. Qed.

Lemma selected_select_in o e : selected (self (select_in o e)) = o.
Proof. reflexivity. Qed.

Lemma default_select_in o e :
  default_box (self (select_in o e)) = default_box (self e).
Proof. reflexivity. Qed.

Lemma leaf_names_no_abort lines x :
  leaf_names lines = Raise x -> x <> IMAP4_abort.
Proof.
  revert x; induction lines as [|[line|] tl IH]; simpl; intros x Hx.
  - discriminate Hx.
  - destruct (leaf_names tl) eqn:E; simpl in Hx; [discriminate Hx|].
    inversion Hx; subst; apply IH; reflexivity.
  - inversion Hx; discriminate.
Qed.

Lemma tick_stable e : stable e -> tick e = (Ok tt, e).
Proof. unfold stable, tick; intros ->; reflexivity. Qed.

Lemma get_mailboxes_stable fuel e :
  stable e -> get_mailboxes srv fuel e = (listing srv, e).
Proof.
  intro H.
  assert (Hbody :
    (r <- cmd_list srv ;;
     if String.eqb (fst r) "OK" then lift (leaf_names (snd r)) else ret []) e
    = (listing srv, e)).
  { unfold cmd_list, bind, listing. rewrite (tick_stable e H).
    destruct (srv_refuses srv LIST); reflexivity. }
  assert (Hne : forall x, listing srv = Raise x -> x <> IMAP4_abort).
  { intros x. unfold listing. destruct (srv_refuses srv LIST); [discriminate|].
    apply leaf_names_no_abort. }
  destruct fuel; simpl; unfold try_abort; rewrite Hbody;
    destruct (listing srv) as [l|x] eqn:E; try reflexivity;
    destruct x; try reflexivity; exfalso; apply (Hne _ eq_refl); reflexivity.
Qed.

Lemma cmd_select_stable name e :
  stable e -> cmd_select srv name e = (Ok (match chosen srv name with Some _ => "OK" | None => "NO" end), select_in (chosen srv name) e).
Proof.
  intro H. unfold cmd_select, bind, chosen. rewrite (tick_stable e H).
  destruct (find_folder srv name); [destruct (srv_refuses srv SELECT)|]; reflexivity.
Qed.

Lemma messages_stable fuel e f fd :
  stable e -> selected (self e) = Some f -> find_folder srv f = Some fd ->
  messages srv fuel e = (Ok (search_of srv fd), e).
Proof.
  intros H Hsel Hfd.
  unfold messages, try_abort, bind, cmd_search_all, bind, need_selected, search_of.
  rewrite Hsel, Hfd, (tick_stable e H).
  destruct (srv_refuses srv SEARCH); reflexivity.
Qed.

Lemma messages_unselected fuel e :
  selected (self e) = None ->
  messages srv fuel e = (Raise (IMAP4_error "SEARCH illegal in state AUTH"), e).
Proof.
  intros Hsel.
  unfold messages, try_abort, bind, cmd_search_all, bind, need_selected.
  rewrite Hsel. reflexivity.
Qed.

Lemma get_messages_eq fuel mailbox_name :
  get_messages srv fuel mailbox_name =
  try_abort
    (boxes <- get_mailboxes srv fuel ;;
     if mem mailbox_name boxes
     then
       cmd_select srv mailbox_name ;;
       msgs <- messages srv fuel ;;
       select_default srv ;;
       ret msgs
     else
       raise (ValueError
                ("Mailer.messages method takes a string mailbox name, "
                   ++ "that exists in list from Mailer.get_mailboxes() method")))
    match fuel with
    | O => raise RecursionError
    | S f => other <- copy srv (get_mailboxes srv f) ;;
             on other (get_messages srv f mailbox_name)
    end.
Proof. destruct fuel; reflexivity. Qed.

(** A call of [get_messages] for a folder of the account. *)
Lemma get_messages_run fuel e f fd boxes :
  stable e -> listing srv = Ok boxes -> mem f boxes = true ->
  find_folder srv f = Some fd -> srv_refuses srv SELECT = false ->
  get_messages srv fuel f e
  = (Ok (search_of srv fd), select_in (chosen srv (default_box (self e))) e).
Proof.
  intros H Hl Hm Hfd Hsel.
  assert (Hch : chosen srv f = Some f) by (unfold chosen; rewrite Hfd, Hsel; reflexivity).
  rewrite get_messages_eq. unfold try_abort, bind.
  rewrite (get_mailboxes_stable fuel e H), Hl, Hm.
  rewrite (cmd_select_stable f e H), Hch.
  rewrite (messages_stable fuel _ f fd (stable_select_in _ _ H) eq_refl Hfd).
  unfold select_default.
  rewrite (cmd_select_stable _ _ (stable_select_in _ _ H)).
  reflexivity.
Qed.

Lemma cmd_fetch_stable s e f fd :
  stable e -> selected (self e) = Some f -> find_folder srv f = Some fd ->
  cmd_fetch srv s e =
  if srv_refuses srv FETCH then (Ok ("NO", [Trailer "FETCH failed"]), e)
  else if (1 <=? fst (set_bounds s)) && (snd (set_bounds s) <=? count fd)
       then (Ok ("OK", fetch_items (messages_between (fd_msgs fd)
                                      (fst (set_bounds s)) (snd (set_bounds s)))), e)
       else (Raise (IMAP4_error "FETCH command error: BAD"), e).
Proof.
  intros H Hsel Hfd.
  unfold cmd_fetch, bind, need_selected.
  rewrite Hsel, Hfd, (tick_stable e H).
  destruct (srv_refuses srv FETCH); [reflexivity|].
  destruct (set_bounds s) as [lo hi]; simpl fst; simpl snd. unfold count.
  destruct ((1 <=? lo) && (hi <=? Z.of_nat (List.length (fd_msgs fd)))); reflexivity.
Qed.

Lemma parse_date_no_abort h x : parse_date h = Raise x -> x <> IMAP4_abort.
Proof.
  unfold parse_date; destruct (parsedate_to_datetime h); intro Hx;
    inversion Hx; discriminate.
Qed.

Lemma first_plain_no_abort ps x : first_plain ps = Raise x -> x <> IMAP4_abort.
Proof.
  induction ps as [|p tl IH]; simpl; [discriminate|].
  destruct (String.eqb (content_type p) "text/plain"); [|exact IH].
  unfold decode; destruct (decode_utf8 (part_payload p)); simpl; intro Hx;
    inversion Hx; discriminate.
Qed.

Lemma Message_init_no_abort raw mailbox x :
  Message_init raw mailbox = Raise x -> x <> IMAP4_abort.
Proof.
  unfold Message_init.
  destruct (parse_date (hdr_date raw)) eqn:E1; simpl;
    [|intro Hx; inversion Hx; subst; exact (parse_date_no_abort _ _ E1)].
  destruct (hdr_received raw) as [r|]; simpl;
    [|intro Hx; inversion Hx; discriminate].
  destruct (parse_date (Some _)) eqn:E2; simpl;
    [|intro Hx; inversion Hx; subst; exact (parse_date_no_abort _ _ E2)].
  unfold _get_body. destruct (content raw) as [b|ps].
  - unfold decode; destruct (decode_utf8 b); simpl; intro Hx;
      inversion Hx; discriminate.
  - destruct (first_plain ps) eqn:E3; simpl; intro Hx; inversion Hx; subst.
    exact (first_plain_no_abort _ _ E3).
Qed.

Lemma message_of_first_no_abort data f x :
  message_of_first data f = Raise x -> x <> IMAP4_abort.
Proof.
  destruct data as [|[k raw|t] tl]; simpl.
  - intro Hx; inversion Hx; discriminate.
  - apply Message_init_no_abort.
  - destruct (Nat.leb (String.length t) 1); intro Hx; inversion Hx; discriminate.
Qed.

Lemma keep_stride_no_abort f step data : forall i x,
  keep_stride f step i data = Raise x -> x <> IMAP4_abort.
Proof.
  induction data as [|[k raw|t] tl IH]; simpl; intros i x.
  - discriminate.
  - destruct (step =? 0); [intro Hx; inversion Hx; discriminate|].
    destruct (i mod step =? 0); [|apply IH].
    destruct (Message_init raw (Some f)) eqn:E; simpl;
      [|intro Hx; inversion Hx; subst; exact (Message_init_no_abort _ _ _ E)].
    destruct (keep_stride f step (i + 1) tl) eqn:E2; simpl; intro Hx;
      inversion Hx; subst. exact (IH _ _ E2).
  - apply IH.
Qed.

Lemma get_message_eq fuel msg_id mailbox_name :
  get_message srv fuel msg_id mailbox_name =
  try_abort_locals msg_id
    (boxes <- in_env (get_mailboxes srv fuel) ;;
     if mem mailbox_name boxes
     then
       in_env (cmd_select srv mailbox_name) ;;
       n <- load ;;
       (if n <=? 0
        then ms <- in_env (messages srv fuel) ;; store (n + len ms)
        else ret tt) ;;
       n <- load ;;
       r <- in_env (cmd_fetch srv (Seq n)) ;;
       if String.eqb (fst r) "OK"
       then m <- lift (message_of_first (snd r) mailbox_name) ;; ret (GotMessage m)
       else in_env (select_default srv) ;; ret (GotStatus (fst r))
     else in_env (invalid_mailbox))
    (fun msg_id =>
       match fuel with
       | O => raise RecursionError
       | S f =>
           other <- copy srv (get_mailboxes srv f) ;;
           on other (get_message srv f msg_id mailbox_name)
       end).
Proof. destruct fuel; reflexivity. Qed.

(** A call of [get_message] for a folder of the account. *)
Lemma get_message_run fuel e f fd boxes k :
  stable e -> listing srv = Ok boxes -> mem f boxes = true ->
  find_folder srv f = Some fd -> srv_refuses srv SELECT = false ->
  get_message srv fuel k f e =
  let n := resolved srv fd k in
  if srv_refuses srv FETCH
  then (Ok (GotStatus "NO"), select_in (chosen srv (default_box (self e))) e)
  else if (1 <=? n) && (n <=? count fd)
       then (got (message_of_first
                    (fetch_items (messages_between (fd_msgs fd) n n)) f),
             select_in (Some f) e)
       else (Raise (IMAP4_error "FETCH command error: BAD"), select_in (Some f) e).
Proof.
  intros H Hl Hm Hfd Hsel.
  assert (Hch : chosen srv f = Some f) by (unfold chosen; rewrite Hfd, Hsel; reflexivity).
  pose proof (stable_select_in (Some f) e H) as H'.
  rewrite get_message_eq. unfold try_abort_locals, bind, in_env, load, store, ret, lift.
  reduce_run.
  rewrite (get_mailboxes_stable fuel e H), Hl. reduce_run. rewrite Hm. reduce_run.
  rewrite (cmd_select_stable f e H), Hch. reduce_run.
  unfold resolved.
  destruct (k <=? 0).
  - reduce_run. rewrite (messages_stable fuel _ f fd H' eq_refl Hfd). reduce_run.
    rewrite (cmd_fetch_stable _ _ f fd H' eq_refl Hfd).
    destruct (srv_refuses srv FETCH).
    + reduce_run. unfold select_default.
      reduce_run. rewrite (cmd_select_stable _ _ H'). reflexivity.
    + cbn [set_bounds fst snd].
      destruct ((1 <=? k + len (search_of srv fd)) && (k + len (search_of srv fd) <=? count fd)); [|reflexivity].
      reduce_run.
      destruct (message_of_first _ f) eqn:E; [reflexivity|].
      pose proof (message_of_first_no_abort _ _ _ E) as Hne.
      destruct e0; try reflexivity. exfalso; apply Hne; reflexivity.
  - reduce_run. rewrite (cmd_fetch_stable _ _ f fd H' eq_refl Hfd).
    destruct (srv_refuses srv FETCH).
    + reduce_run. unfold select_default.
      reduce_run. rewrite (cmd_select_stable _ _ H'). reflexivity.
    + cbn [set_bounds fst snd].
      destruct ((1 <=? k) && (k <=? count fd)); [|reflexivity].
      reduce_run.
      destruct (message_of_first _ f) eqn:E; [reflexivity|].
      pose proof (message_of_first_no_abort _ _ _ E) as Hne.
      destruct e0; try reflexivity. exfalso; apply Hne; reflexivity.
Qed.

Lemma from_end_stable fuel e f fd n :
  stable e -> selected (self e) = Some f -> find_folder srv f = Some fd ->
  from_end srv fuel (Some n) e = (Ok (resolved srv fd n), e).
Proof.
  intros H Hsel Hfd. unfold from_end, bound, bind, ret, resolved. reduce_run.
  destruct (n <=? 0); [|reflexivity].
  reduce_run. rewrite (messages_stable fuel e f fd H Hsel Hfd). reflexivity.
Qed.

Lemma slice_messages_eq fuel start stop mailbox_name step :
  slice_messages srv fuel start stop mailbox_name step =
  try_abort_locals (start, stop)
    (boxes <- in_env (get_mailboxes srv fuel) ;;
     if mem mailbox_name boxes
     then
       in_env (cmd_select srv mailbox_name) ;;
       a <- in_env (from_end srv fuel start) ;;
       store (Some a, stop) ;;
       b <- in_env (from_end srv fuel stop) ;;
       store (Some a, Some b) ;;
       let a := Z.max 1 a in
       store (Some a, Some b) ;;
       ms <- in_env (messages srv fuel) ;;
       let b := Z.min (len ms) b in
       store (Some a, Some b) ;;
       r <- in_env (cmd_fetch srv (SeqRange a b)) ;;
       if String.eqb (fst r) "OK"
       then l <- lift (keep_stride mailbox_name step 0 (snd r)) ;;
            ret (GotMessages l)
       else in_env (select_default srv) ;; ret (GotStatus (fst r))
     else in_env invalid_mailbox)
    (fun locals =>
       match fuel with
       | O => raise RecursionError
       | S f =>
           other <- copy srv (get_mailboxes srv f) ;;
           on other (slice_messages srv f (fst locals) (snd locals) mailbox_name step)
       end).
Proof. destruct fuel; reflexivity. Qed.

(** A call of [slice_messages] for a folder of the account. *)
Lemma slice_messages_run fuel e f fd boxes start stop step :
  stable e -> listing srv = Ok boxes -> mem f boxes = true ->
  find_folder srv f = Some fd -> srv_refuses srv SELECT = false ->
  slice_messages srv fuel (Some start) (Some stop) f step e =
  let a := Z.max 1 (resolved srv fd start) in
  let b := Z.min (len (search_of srv fd)) (resolved srv fd stop) in
  if srv_refuses srv FETCH
  then (Ok (GotStatus "NO"), select_in (chosen srv (default_box (self e))) e)
  else if (1 <=? Z.min a b) && (Z.max a b <=? count fd)
       then (gots (keep_stride f step 0
                     (fetch_items (messages_between (fd_msgs fd)
                                     (Z.min a b) (Z.max a b)))),
             select_in (Some f) e)
       else (Raise (IMAP4_error "FETCH command error: BAD"), select_in (Some f) e).
Proof.
  intros H Hl Hm Hfd Hsel.
  assert (Hch : chosen srv f = Some f) by (unfold chosen; rewrite Hfd, Hsel; reflexivity).
  pose proof (stable_select_in (Some f) e H) as H'.
  rewrite slice_messages_eq. unfold try_abort_locals, bind, in_env, load, store, ret, lift.
  reduce_run.
  rewrite (get_mailboxes_stable fuel e H), Hl. reduce_run. rewrite Hm. reduce_run.
  rewrite (cmd_select_stable f e H), Hch. reduce_run.
  rewrite (from_end_stable fuel _ f fd start H' eq_refl Hfd). reduce_run.
  rewrite (from_end_stable fuel _ f fd stop H' eq_refl Hfd). reduce_run.
  rewrite (messages_stable fuel _ f fd H' eq_refl Hfd). reduce_run.
  rewrite (cmd_fetch_stable _ _ f fd H' eq_refl Hfd).
  destruct (srv_refuses srv FETCH).
  - reduce_run. unfold select_default.
    reduce_run. rewrite (cmd_select_stable _ _ H'). reflexivity.
  - cbn [set_bounds fst snd].
    match goal with |- context [if ?c then _ else _] => destruct c end;
      [|reflexivity].
    reduce_run.
    destruct (keep_stride f step 0 _) eqn:E; [reflexivity|].
    pose proof (keep_stride_no_abort _ _ _ _ _ E) as Hne.
    destruct e0; try reflexivity. exfalso; apply Hne; reflexivity.
Qed.

End StableRuns.

(** ** Lists of messages and fetched entries *)

Lemma mem_In s l : mem s l = true <-> In s l.
Proof.
  unfold mem. rewrite existsb_exists. split.
  - intros [x [Hin Heq]]. apply String.eqb_eq in Heq. subst; exact Hin.
  - intro Hin. exists s. split; [exact Hin|apply String.eqb_refl].
Qed.

Lemma mem_not_In s l : ~ In s l -> mem s l = false.
Proof.
  intro H. destruct (mem s l) eqn:E; [|reflexivity].
  exfalso; apply H; apply mem_In; exact E.
Qed.

Lemma numbered_length k l : List.length (numbered k l) = List.length l.
Proof. revert k; induction l as [|x tl IH]; intro k; simpl; [|rewrite IH]; reflexivity. Qed.

Lemma len_search_of srv fd :
  srv_refuses srv SEARCH = false -> len (search_of srv fd) = count fd.
Proof.
  intro H. unfold search_of, numbers, len, count. rewrite H.
  rewrite length_map, numbered_length. reflexivity.
Qed.

Lemma between_length msgs a b :
  1 <= a -> a <= b -> b <= Z.of_nat (List.length msgs) ->
  Z.of_nat (List.length (between msgs a b)) = b - a + 1.
Proof.
  intros Ha Hab Hb. unfold between.
  rewrite length_firstn, length_skipn. lia.
Qed.

Lemma between_one msgs n :
  1 <= n -> n <= Z.of_nat (List.length msgs) ->
  exists raw, nth_error msgs (Z.to_nat (n - 1)) = Some raw
              /\ between msgs n n = [raw].
Proof.
  intros Hlo Hhi. unfold between.
  replace (Z.to_nat (n - n + 1)) with 1%nat by lia.
  assert (Hlt : (Z.to_nat (n - 1) < List.length msgs)%nat) by lia.
  revert Hlt. generalize (Z.to_nat (n - 1)) as j. clear Hlo Hhi.
  induction msgs as [|x tl IH]; intros j Hlt; simpl in Hlt; [lia|].
  destruct j as [|j].
  - exists x. split; reflexivity.
  - destruct (IH j) as [raw [Hn Hb]]; [lia|].
    exists raw. split; [exact Hn|exact Hb].
Qed.

Section Stride.
Context {R : Runtime}.

Lemma keep_stride_parsed f step raws : step <> 0 -> forall ms a i,
  parsed f raws ms ->
  keep_stride f step i (fetch_items (numbered a raws)) = Ok (stride_from step i ms).
Proof.
  intros Hstep. induction raws as [|raw tl IH]; intros ms a i Hp; inversion Hp; subst.
  - reflexivity.
  - simpl. destruct (step =? 0) eqn:E; [apply Z.eqb_eq in E; contradiction|].
    replace (i + 1 + 1) with (i + 2) by lia.
    rewrite (IH _ (a + 1) (i + 2) H3).
    destruct (i mod step =? 0); [rewrite H1|]; reflexivity.
Qed.

Lemma stride_from_positions step ms : forall j,
  stride_from step (position_in_fetched j) ms
  = map snd (filter (fun p => position_in_fetched (fst p) mod step =? 0)
                    (combine (seq j (List.length ms)) ms)).
Proof.
  induction ms as [|m tl IH]; intro j; simpl; [reflexivity|].
  replace (position_in_fetched j + 2) with (position_in_fetched (S j))
    by (unfold position_in_fetched; lia).
  rewrite IH. destruct (position_in_fetched j mod step =? 0); reflexivity.
Qed.

Lemma stride_from_at_stride step ms : stride_from step 0 ms = at_stride step ms.
Proof. exact (stride_from_positions step ms 0%nat). Qed.

Lemma stride_from_one ms : forall pos, stride_from 1 pos ms = ms.
Proof.
  induction ms as [|m tl IH]; intro pos; simpl; [reflexivity|].
  rewrite Z.mod_1_r, IH. reflexivity.
Qed.

(** The tuple of the [k]-th message of a fetched range sits at position
    [position_in_fetched k] of the list the client returns. *)
Lemma fetched_position raws : forall a k raw,
  nth_error raws k = Some raw ->
  nth_error (fetch_items (numbered a raws)) (Z.to_nat (position_in_fetched k))
  = Some (Literal (a + Z.of_nat k) raw).
Proof.
  unfold position_in_fetched.
  induction raws as [|x tl IH]; intros a k raw Hn; destruct k as [|k];
    simpl in Hn; try discriminate.
  - inversion Hn; subst. simpl. rewrite Z.add_0_r. reflexivity.
  - replace (Z.to_nat (2 * Z.of_nat (S k))) with (S (S (Z.to_nat (2 * Z.of_nat k)))) by lia.
    cbn [numbered fetch_items nth_error].
    rewrite (IH (a + 1) k raw Hn). f_equal. f_equal. lia.
Qed.

End Stride.

(** ** Addressing one message *)

Section Addressing.
Context {R : Runtime}.
Variable srv : Server.

Lemma listed fuel e boxes :
  stable e -> fst (get_mailboxes srv fuel e) = Ok boxes -> listing srv = Ok boxes.
Proof. intros H Hb. rewrite (get_mailboxes_stable srv fuel e H) in Hb. exact Hb. Qed.

(** Fetching the number [n] of a folder yields the message its [n]-th
    payload parses to, and leaves the folder selected. *)
Lemma get_message_in_range fuel e f fd boxes k :
  stable e -> listing srv = Ok boxes -> In f boxes ->
  find_folder srv f = Some fd -> serves srv ->
  1 <= resolved srv fd k <= count fd ->
  exists raw,
    nth_error (fd_msgs fd) (Z.to_nat (resolved srv fd k - 1)) = Some raw
    /\ get_message srv fuel k f e
       = (got (Message_init raw (Some f)), select_in (Some f) e).
Proof.
  intros H Hl Hin Hfd [Hsel [Hsea Hfe]] [Hlo Hhi].
  destruct (between_one (fd_msgs fd) (resolved srv fd k) Hlo Hhi) as [raw [Hn Hb]].
  exists raw. split; [exact Hn|].
  rewrite (get_message_run srv fuel e f fd boxes k H Hl (proj2 (mem_In f boxes) Hin) Hfd Hsel).
  cbv zeta. rewrite Hfe.
  replace ((1 <=? resolved srv fd k) && (resolved srv fd k <=? count fd)) with true
    by (symmetry; apply andb_true_intro; split; apply Z.leb_le; assumption).
  unfold messages_between. fold (between (fd_msgs fd) (resolved srv fd k) (resolved srv fd k)).
  rewrite Hb. reflexivity.
Qed.

End Addressing.

(** C1, as stated, fails: in a folder of four messages, number 4 and the
    offset 4 - 4 - 1 = -1 address messages with different ids (the offset
    -1 is mapped to 3). *)
Lemma get_message_offset_minus_one_differs :
  exists m1 m2,
    fst (get_message Sample.server 0 4 "Work" Sample.start) = Ok (GotMessage m1)
    /\ fst (get_message Sample.server 0 (4 - 4 - 1) "Work" Sample.start)
       = Ok (GotMessage m2)
    /\ m_id m1 <> m_id m2.
Proof.
  eexists; eexists. split; [vm_compute; reflexivity|].
  split; [vm_compute; reflexivity|].
  simpl. discriminate.
Qed.

(** C1 (amended): for a folder [f] of the account with [count] messages and
    [0 < n <= count], [get_message(n, f)] and [get_message(n - count, f)]
    both return the message parsed from the [n]-th payload of [f], hence
    messages with the same id: a non-positive argument [m] is mapped by
    [msg_id += message_count] to the number [m + count]. *)
Theorem get_message_offset_from_end :
  forall {R : Runtime} (srv : Server) (fuel : nat) (e1 e2 : env)
         (f : string) (fd : Folder) (boxes : list string) (n : Z),
    stable e1 -> stable e2 ->
    fst (get_mailboxes srv fuel e1) = Ok boxes -> In f boxes ->
    find_folder srv f = Some fd -> serves srv ->
    0 < n <= count fd ->
    exists raw,
      nth_error (fd_msgs fd) (Z.to_nat (n - 1)) = Some raw
      /\ fst (get_message srv fuel n f e1) = got (Message_init raw (Some f))
      /\ fst (get_message srv fuel (n - count fd) f e2)
         = got (Message_init raw (Some f)).
Proof.
  intros R srv fuel e1 e2 f fd boxes n H1 H2 Hb Hin Hfd Hs Hn.
  pose proof (listed srv fuel e1 boxes H1 Hb) as Hl.
  assert (Hr1 : resolved srv fd n = n).
  { unfold resolved. destruct (n <=? 0) eqn:E; [apply Z.leb_le in E; lia|reflexivity]. }
  assert (Hr2 : resolved srv fd (n - count fd) = n).
  { unfold resolved. rewrite (len_search_of srv fd (proj1 (proj2 Hs))).
    destruct (n - count fd <=? 0) eqn:E; [lia|apply Z.leb_gt in E; lia]. }
  destruct (get_message_in_range srv fuel e1 f fd boxes n H1 Hl Hin Hfd Hs)
    as [raw [Hnth Hrun1]]; [rewrite Hr1; lia|].
  destruct (get_message_in_range srv fuel e2 f fd boxes (n - count fd) H2 Hl Hin Hfd Hs)
    as [raw' [Hnth' Hrun2]]; [rewrite Hr2; lia|].
  rewrite Hr1 in Hnth. rewrite Hr2 in Hnth'.
  assert (raw' = raw) by congruence. subst raw'.
  exists raw. split; [exact Hnth|].
  rewrite Hrun1, Hrun2. split; reflexivity.
Qed.

Lemma get_message_offset_from_end_witness :
  exists raw,
    nth_error (fd_msgs (Sample.folder "Work" (map Sample.mail ["w1"; "w2"; "w3"; "w4"])))
              (Z.to_nat (2 - 1)) = Some raw
    /\ fst (get_message Sample.server 0 2 "Work" Sample.start)
       = got (Message_init raw (Some "Work"))
    /\ fst (get_message Sample.server 0
              (2 - count (Sample.folder "Work" (map Sample.mail ["w1"; "w2"; "w3"; "w4"])))
              "Work" Sample.start)
       = got (Message_init raw (Some "Work")).
Proof.
  apply (get_message_offset_from_end Sample.server 0 Sample.start Sample.start
           "Work" (Sample.folder "Work" (map Sample.mail ["w1"; "w2"; "w3"; "w4"]))
           ["INBOX"; "Work"] 2).
  - reflexivity.
  - reflexivity.
  - reflexivity.
  - simpl; auto.
  - reflexivity.
  - repeat split; reflexivity.
  - vm_compute. split; [reflexivity|discriminate].
Defined.

(** C6: on a mailer whose default folder holds ten messages, [mailer[0]]
    takes the branch [msg_id <= 0] of [get_message], computes [0 + 10 = 10]
    and returns the tenth message of the default folder. *)
Theorem Mailer_getitem_zero_is_last :
  forall {R : Runtime} (srv : Server) (fuel : nat) (e : env) (fd : Folder)
         (boxes : list string) (raw : EmailMessage) (m : Message),
    stable e ->
    fst (get_mailboxes srv fuel e) = Ok boxes ->
    In (default_box (self e)) boxes ->
    find_folder srv (default_box (self e)) = Some fd ->
    serves srv ->
    count fd = 10 ->
    nth_error (fd_msgs fd) 9 = Some raw ->
    Message_init raw (Some (default_box (self e))) = Ok m ->
    (0 <=? 0) = true
    /\ resolved srv fd 0 = 10
    /\ fst (Mailer_getitem srv fuel (KInt 0) e) = Ok (IFetched (GotMessage m)).
Proof.
  intros R srv fuel e fd boxes raw m H Hb Hin Hfd Hs Hc Hnth Hm.
  pose proof (listed srv fuel e boxes H Hb) as Hl.
  assert (Hr : resolved srv fd 0 = 10).
  { unfold resolved. simpl. rewrite (len_search_of srv fd (proj1 (proj2 Hs))). exact Hc. }
  split; [reflexivity|]. split; [exact Hr|].
  destruct (get_message_in_range srv fuel e _ fd boxes 0 H Hl Hin Hfd Hs)
    as [raw' [Hnth' Hrun]]; [rewrite Hr, Hc; lia|].
  rewrite Hr in Hnth'. change (Z.to_nat (10 - 1)) with 9%nat in Hnth'.
  assert (raw' = raw) by congruence. subst raw'.
  unfold Mailer_getitem, MailBox_getitem, bind.
  rewrite Hrun, Hm. reflexivity.
Qed.

Lemma Mailer_getitem_zero_is_last_witness :
  exists m,
    m_id m = Some "<m10@mail.example>"
    /\ fst (Mailer_getitem Sample.server 0 (KInt 0) Sample.start)
       = Ok (IFetched (GotMessage m)).
Proof.
  eexists. split; [|
    apply (Mailer_getitem_zero_is_last Sample.server 0 Sample.start
             (Sample.folder "INBOX" Sample.ten) ["INBOX"; "Work"]
             (Sample.mail "m10"));
    [ reflexivity | reflexivity | simpl; auto | reflexivity
    | repeat split; reflexivity | reflexivity | reflexivity
    | vm_compute; reflexivity ] ].
  reflexivity.
Defined.

(** C9: a successful [get_messages(folder_name)] for a folder of the
    account returns the result of the ALL search made in [folder_name] and
    leaves the default folder selected; nothing else of the mailer
    changes. *)
Theorem get_messages_reselects_default :
  forall {R : Runtime} (srv : Server) (fuel : nat) (e : env) (f : string)
         (fd d : Folder) (boxes : list string),
    stable e ->
    fst (get_mailboxes srv fuel e) = Ok boxes -> In f boxes ->
    find_folder srv f = Some fd ->
    find_folder srv (default_box (self e)) = Some d ->
    srv_refuses srv SELECT = false ->
    get_messages srv fuel f e
    = (Ok (search_of srv fd), select_in (Some (default_box (self e))) e)
    /\ selected (self (snd (get_messages srv fuel f e)))
       = Some (default_box (self e)).
Proof.
  intros R srv fuel e f fd d boxes H Hb Hin Hfd Hd Hsel.
  pose proof (listed srv fuel e boxes H Hb) as Hl.
  rewrite (get_messages_run srv fuel e f fd boxes H Hl (proj2 (mem_In f boxes) Hin) Hfd Hsel).
  unfold chosen. rewrite Hd, Hsel. split; reflexivity.
Qed.

Lemma get_messages_reselects_default_witness :
  get_messages Sample.server 0 "Work" Sample.start
  = (Ok (Ids [1; 2; 3; 4]), Sample.start)
  /\ selected (self (snd (get_messages Sample.server 0 "Work" Sample.start)))
     = Some "INBOX".
Proof.
  apply (get_messages_reselects_default Sample.server 0 Sample.start "Work"
           (Sample.folder "Work" (map Sample.mail ["w1"; "w2"; "w3"; "w4"]))
           (Sample.folder "INBOX" Sample.ten) ["INBOX"; "Work"]);
    [ reflexivity | reflexivity | simpl; auto | reflexivity | reflexivity
    | reflexivity ].
Defined.

(** C10: for a folder of the account and any message number, bounds and
    step, when the server answers FETCH, [get_message] and
    [slice_messages] return (the result built from the answer, or the
    error raised on the way) with [folder_name] still selected: whenever
    they return a message or a list of messages, the selected folder is
    [folder_name]; when the server refuses FETCH, and only when they
    return a status, they have selected the default folder again. *)
Theorem fetch_leaves_folder_selected :
  forall {R : Runtime} (srv : Server) (fuel : nat) (e : env) (f : string)
         (fd d : Folder) (boxes : list string) (k start stop step : Z),
    stable e ->
    fst (get_mailboxes srv fuel e) = Ok boxes -> In f boxes ->
    find_folder srv f = Some fd ->
    find_folder srv (default_box (self e)) = Some d ->
    srv_refuses srv SELECT = false ->
    (srv_refuses srv FETCH = false ->
       (exists o, fst (get_message srv fuel k f e) = got o)
       /\ snd (get_message srv fuel k f e) = select_in (Some f) e
       /\ (exists o, fst (slice_messages srv fuel (Some start) (Some stop) f step e)
                     = gots o)
       /\ snd (slice_messages srv fuel (Some start) (Some stop) f step e)
          = select_in (Some f) e)
    /\ (srv_refuses srv FETCH = true ->
          get_message srv fuel k f e
          = (Ok (GotStatus "NO"), select_in (Some (default_box (self e))) e)
          /\ slice_messages srv fuel (Some start) (Some stop) f step e
             = (Ok (GotStatus "NO"), select_in (Some (default_box (self e))) e))
    /\ (forall m, fst (get_message srv fuel k f e) = Ok (GotMessage m) ->
          selected (self (snd (get_message srv fuel k f e))) = Some f)
    /\ (forall l,
          fst (slice_messages srv fuel (Some start) (Some stop) f step e)
          = Ok (GotMessages l) ->
          selected (self (snd (slice_messages srv fuel (Some start) (Some stop)
                                 f step e)))
          = Some f)
    /\ (forall rv, fst (get_message srv fuel k f e) = Ok (GotStatus rv) ->
          srv_refuses srv FETCH = true
          /\ selected (self (snd (get_message srv fuel k f e)))
             = Some (default_box (self e)))
    /\ (forall rv,
          fst (slice_messages srv fuel (Some start) (Some stop) f step e)
          = Ok (GotStatus rv) ->
          srv_refuses srv FETCH = true
          /\ selected (self (snd (slice_messages srv fuel (Some start) (Some stop)
                                    f step e)))
             = Some (default_box (self e))).
Proof.
  intros R srv fuel e f fd d boxes k start stop step H Hb Hin Hfd Hd Hsel.
  pose proof (listed srv fuel e boxes H Hb) as Hl.
  pose proof (proj2 (mem_In f boxes) Hin) as Hm.
  assert (Hch : chosen srv (default_box (self e)) = Some (default_box (self e)))
    by (unfold chosen; rewrite Hd, Hsel; reflexivity).
  rewrite (get_message_run srv fuel e f fd boxes k H Hl Hm Hfd Hsel).
  rewrite (slice_messages_run srv fuel e f fd boxes start stop step H Hl Hm Hfd Hsel).
  cbv zeta. rewrite Hch.
  destruct (srv_refuses srv FETCH).
  - cbn [fst snd].
    split; [discriminate|]. split; [split; reflexivity|].
    split; [discriminate|]. split; [discriminate|].
    split; intros rv _; split; reflexivity.
  - destruct ((1 <=? resolved srv fd k) && (resolved srv fd k <=? count fd));
      (destruct ((1 <=? Z.min (Z.max 1 (resolved srv fd start))
                          (Z.min (len (search_of srv fd)) (resolved srv fd stop)))
                 && (Z.max (Z.max 1 (resolved srv fd start))
                       (Z.min (len (search_of srv fd)) (resolved srv fd stop))
                     <=? count fd)));
      cbn [fst snd];
      (split;
       [ intros _;
         split;
         [ first [ eexists; reflexivity
                 | exists (Raise (IMAP4_error "FETCH command error: BAD"));
                   reflexivity ] | ];
         split; [reflexivity|];
         split;
         [ first [ eexists; reflexivity
                 | exists (Raise (IMAP4_error "FETCH command error: BAD"));
                   reflexivity ]
         | reflexivity ]
       | ]);
      (split; [discriminate|]);
      (split; [intros m _; reflexivity|]);
      (split; [intros l _; reflexivity|]);
      (split; intros rv Hrv; exfalso; revert Hrv);
      try discriminate;
      try (destruct (message_of_first _ f); discriminate);
      try (destruct (keep_stride f step 0 _); discriminate).
Qed.

Lemma fetch_leaves_folder_selected_witness :
  (exists l,
      map m_id l = [Some "<w3@mail.example>"; Some "<w4@mail.example>"]
      /\ fst (slice_messages Sample.server 0 (Some (-1)) (Some 99) "Work" 1
                Sample.start)
         = Ok (GotMessages l))
  /\ snd (slice_messages Sample.server 0 (Some (-1)) (Some 99) "Work" 1
            Sample.start)
     = select_in (Some "Work") Sample.start
  /\ (exists l,
        map m_id l = [Some "<w2@mail.example>"; Some "<w3@mail.example>"]
        /\ fst (slice_messages Sample.server 0 (Some 3) (Some 2) "Work" 1
                  Sample.start)
           = Ok (GotMessages l))
  /\ selected (self (snd (slice_messages Sample.server 0 (Some 3) (Some 2)
                            "Work" 1 Sample.start)))
     = Some "Work"
  /\ snd (get_message Sample.server 0 0 "Work" Sample.start)
     = select_in (Some "Work") Sample.start
  /\ get_message Sample.server_no_fetch 0 0 "Work" Sample.start
     = (Ok (GotStatus "NO"), select_in (Some "INBOX") Sample.start).
Proof.
  destruct (fetch_leaves_folder_selected Sample.server 0 Sample.start "Work"
              (Sample.folder "Work" (map Sample.mail ["w1"; "w2"; "w3"; "w4"]))
              (Sample.folder "INBOX" Sample.ten) ["INBOX"; "Work"] 0 3 2 1)
    as (_ & _ & _ & Hrev & _);
    [ reflexivity | reflexivity | simpl; auto | reflexivity | reflexivity
    | reflexivity | ].
  destruct (fetch_leaves_folder_selected Sample.server 0 Sample.start "Work"
              (Sample.folder "Work" (map Sample.mail ["w1"; "w2"; "w3"; "w4"]))
              (Sample.folder "INBOX" Sample.ten) ["INBOX"; "Work"] 0 (-1) 99 1)
    as [Hok _];
    [ reflexivity | reflexivity | simpl; auto | reflexivity | reflexivity
    | reflexivity | ].
  destruct (fetch_leaves_folder_selected Sample.server_no_fetch 0 Sample.start "Work"
              (Sample.folder "Work" (map Sample.mail ["w1"; "w2"; "w3"; "w4"]))
              (Sample.folder "INBOX" Sample.ten) ["INBOX"; "Work"] 0 (-1) 99 1)
    as [_ [Hno _]];
    [ reflexivity | reflexivity | simpl; auto | reflexivity | reflexivity
    | reflexivity | ].
  destruct (Hok eq_refl) as [_ [Hs1 [_ Hs2]]].
  destruct (Hno eq_refl) as [Hn1 _].
  split; [eexists; split; [|vm_compute; reflexivity]; reflexivity|].
  split; [exact Hs2|].
  split; [eexists; split; [|vm_compute; reflexivity]; reflexivity|].
  split; [eapply Hrev; vm_compute; reflexivity|].
  split; [exact Hs1|exact Hn1].
Defined.

(** ** Slices *)

Lemma parsed_length {R : Runtime} f raws ms :
  parsed f raws ms -> List.length ms = List.length raws.
Proof. intro H; induction H; simpl; [|rewrite IHForall2]; reflexivity. Qed.

(** ** Invalid folders and serialization *)

(** C4 (code): for a folder name that [get_mailboxes()] does not list,
    [get_messages] raises the [ValueError] that names the valid-folder
    requirement, whereas [get_message] and [slice_messages] raise
    [NameError]: their error text reads the unbound name [method_name]. *)
Theorem invalid_folder_errors :
  forall {R : Runtime} (srv : Server) (fuel : nat) (e : env) (f : string)
         (boxes : list string) (msg_id : Z) (start stop : option Z) (step : Z),
    stable e ->
    fst (get_mailboxes srv fuel e) = Ok boxes -> ~ In f boxes ->
    fst (get_messages srv fuel f e)
    = Raise (ValueError
               ("Mailer.messages method takes a string mailbox name, "
                  ++ "that exists in list from Mailer.get_mailboxes() method"))
    /\ fst (get_message srv fuel msg_id f e) = Raise (NameError "method_name")
    /\ fst (slice_messages srv fuel start stop f step e)
       = Raise (NameError "method_name").
Proof.
  intros R srv fuel e f boxes msg_id start stop step H Hb Hnin.
  pose proof (listed srv fuel e boxes H Hb) as Hl.
  pose proof (mem_not_In f boxes Hnin) as Hm.
  split; [|split].
  - rewrite get_messages_eq. unfold try_abort, bind.
    rewrite (get_mailboxes_stable srv fuel e H), Hl. reduce_run. rewrite Hm.
    reflexivity.
  - rewrite get_message_eq. unfold try_abort_locals, bind, in_env. reduce_run.
    rewrite (get_mailboxes_stable srv fuel e H), Hl. reduce_run. rewrite Hm.
    reflexivity.
  - rewrite slice_messages_eq. unfold try_abort_locals, bind, in_env. reduce_run.
    rewrite (get_mailboxes_stable srv fuel e H), Hl. reduce_run. rewrite Hm.
    reflexivity.
Qed.

Lemma invalid_folder_errors_witness :
  fst (get_messages Sample.server 0 "Nope" Sample.start)
  = Raise (ValueError
             ("Mailer.messages method takes a string mailbox name, "
                ++ "that exists in list from Mailer.get_mailboxes() method"))
  /\ fst (get_message Sample.server 0 1 "Nope" Sample.start)
     = Raise (NameError "method_name")
  /\ fst (slice_messages Sample.server 0 (Some 1) (Some 2) "Nope" 1 Sample.start)
     = Raise (NameError "method_name").
Proof.
  apply (invalid_folder_errors Sample.server 0 Sample.start "Nope"
           ["INBOX"; "Work"] 1 (Some 1) (Some 2) 1);
    [ reflexivity | reflexivity | ].
  simpl. intros [Hx | [Hx | []]]; discriminate Hx.
Defined.

(** C3 (code): when the ALL search of the selected folder succeeds and the
    folder is not empty, [Mailer.serialize()] raises [AttributeError]: the
    items of [self.messages] are integers, which have no [serialize]. *)
Theorem Mailer_serialize_fails_on_numbers :
  forall {R : Runtime} (srv : Server) (fuel : nat) (e : env) (f : string)
         (fd : Folder),
    stable e ->
    selected (self e) = Some f -> find_folder srv f = Some fd ->
    srv_refuses srv SEARCH = false ->
    fd_msgs fd <> [] ->
    fst (messages srv fuel e) = Ok (Ids (numbers (fd_msgs fd)))
    /\ fst (Mailer_serialize srv fuel e)
       = Raise (AttributeError "'int' object has no attribute 'serialize'").
Proof.
  intros R srv fuel e f fd H Hsel Hfd Hsea Hne.
  unfold Mailer_serialize, bind.
  rewrite (messages_stable srv fuel e f fd H Hsel Hfd).
  unfold search_of. rewrite Hsea. split; [reflexivity|].
  destruct (fd_msgs fd) as [|raw tl]; [contradiction|reflexivity].
Qed.

Lemma Mailer_serialize_fails_on_numbers_witness :
  fst (messages Sample.server 0 Sample.start)
  = Ok (Ids (numbers (fd_msgs (Sample.folder "INBOX" Sample.ten))))
  /\ fst (Mailer_serialize Sample.server 0 Sample.start)
     = Raise (AttributeError "'int' object has no attribute 'serialize'").
Proof.
  apply (Mailer_serialize_fails_on_numbers Sample.server 0 Sample.start "INBOX"
           (Sample.folder "INBOX" Sample.ten));
    [ reflexivity | reflexivity | reflexivity | reflexivity | discriminate ].
Defined.

(** C5 (code): [json] of a message, of a folder and of a mailer raises
    [NameError] whatever the object and the indentation: the module never
    imports [json]. *)
Theorem json_is_unbound :
  forall {R : Runtime} (srv : Server) (fuel : nat) (e : env) (m : Message)
         (name : string) (indent : option Z),
    Message_json m indent = Raise (NameError "json")
    /\ MailBox_json srv fuel name indent e = (Raise (NameError "json"), e)
    /\ Mailer_json srv fuel indent e = (Raise (NameError "json"), e).
Proof.
  intros. split; [|split]; reflexivity.
Qed.

(** ** Messages: field access and attachments *)

Lemma report_message_parsed :
  Message_init Sample.report_mail (Some "INBOX") = Ok Sample.report_message.
Proof. reflexivity. Qed.

(** C7: [message[key]] returns the field named by each of the eight keys,
    and for any other key raises the [KeyError] whose text lists the eight
    allowed keys. *)
Theorem Message_getitem_fixed_keys :
  forall {R : Runtime} (m : Message),
    (forall key, ~ In key keys ->
       Message_getitem m key
       = Raise (KeyError
                  ("Message has only 8 allowed keys: "
                     ++ "['id', 'From', 'To', 'subject', 'date_sent', "
                     ++ "'date_received', 'attachments', 'body']")))
    /\ Message_getitem m "id" = Ok (of_opt (m_id m))
    /\ Message_getitem m "From" = Ok (of_opt (m_From m))
    /\ Message_getitem m "To" = Ok (of_opt (m_To m))
    /\ Message_getitem m "subject" = Ok (of_opt (m_subject m))
    /\ Message_getitem m "date_sent" = Ok (VDatetime (m_date_sent m))
    /\ Message_getitem m "date_received" = Ok (VDatetime (m_date_received m))
    /\ Message_getitem m "attachments" = Ok (VAttachments (m_attachments m))
    /\ Message_getitem m "body" = Ok (of_opt (m_body m)).
Proof.
  intros R m. split.
  - intros key Hk. unfold Message_getitem.
    rewrite (mem_not_In key keys Hk). reflexivity.
  - repeat split; reflexivity.
Qed.

Lemma Message_getitem_fixed_keys_witness :
  Message_getitem Sample.report_message "nonexistent"
  = Raise (KeyError
             ("Message has only 8 allowed keys: "
                ++ "['id', 'From', 'To', 'subject', 'date_sent', "
                ++ "'date_received', 'attachments', 'body']"))
  /\ Message_getitem Sample.report_message "subject" = Ok (VStr "report").
Proof.
  destruct (Message_getitem_fixed_keys Sample.report_message)
    as [Hother [_ [_ [_ [Hsubject _]]]]].
  split; [|exact Hsubject].
  apply Hother. simpl.
  intros [Hx|[Hx|[Hx|[Hx|[Hx|[Hx|[Hx|[Hx|[]]]]]]]]]; discriminate Hx.
Defined.

Lemma append_empty s : s ++ EmptyString = s.
Proof. induction s as [|c s IH]; simpl; [|rewrite IH]; reflexivity. Qed.

Lemma append_assoc3 (a b c : string) : (a ++ b) ++ c = a ++ b ++ c.
Proof. induction a as [|x a IH]; simpl; [|rewrite IH]; reflexivity. Qed.

Lemma prefix_at c s :
  String.prefix "@" (String c s) = Ascii.eqb "@" c.
Proof.
  change (String.prefix "@" (String c s))
    with (if ascii_dec "@" c then String.prefix EmptyString s else false).
  destruct (ascii_dec "@" c) as [Heq|Hne].
  - subst c. rewrite Ascii.eqb_refl. destruct s; reflexivity.
  - symmetry. apply Ascii.eqb_neq. exact Hne.
Qed.

(** The text before the first [@]. *)
Lemma split_go_before_at rest l : forall cur,
  has_char "@" l = false ->
  hd EmptyString (split_go "@" (l ++ String "@" rest) 0 cur) = cur ++ l.
Proof.
  induction l as [|c l IH]; intros cur Hl.
  - cbn [append split_go]. rewrite prefix_at, append_empty. reflexivity.
  - cbn [has_char] in Hl. apply orb_false_elim in Hl. destruct Hl as [Hc Hl].
    cbn [append split_go]. rewrite prefix_at, Hc.
    rewrite (IH _ Hl). unfold of_char. rewrite append_assoc3. reflexivity.
Qed.

Section Attachments.
Context {R : Runtime}.

Lemma short_id_of_bracketed m local rest :
  m_id m = Some ("<" ++ local ++ "@" ++ rest) ->
  has_char "@" local = false ->
  short_id m = Ok local.
Proof.
  intros Hid Hl. unfold short_id, split_first, split. rewrite Hid.
  change ("<" ++ local ++ "@" ++ rest)
    with (String "<" (local ++ String "@" rest)).
  cbn [split_go]. rewrite prefix_at. cbn [Ascii.eqb Bool.eqb].
  cbv beta iota. rewrite (split_go_before_at rest local _ Hl). reflexivity.
Qed.

Lemma format_default sid name :
  format_name default_name_format sid name [] = Ok (sid ++ "_" ++ name).
Proof.
  unfold format_name, default_name_format. cbn.
  unfold field_value, of_char. cbn [all_digits].
  change (is_digit "s") with false. change (is_digit "n") with false. cbn.
  rewrite append_empty. reflexivity.
Qed.

Lemma write_file_writable path data fs :
  fs_writable (snd (write_file path data fs)) = fs_writable fs.
Proof. unfold write_file. destruct (fs_writable fs path); reflexivity. Qed.

(** With the default format every attachment is written, in order, under
    the name made of the short id, an underscore and its file name. *)
Lemma save_each_default m directory local :
  short_id m = Ok local ->
  forall atts fs,
    (forall a, In a atts ->
       fs_writable fs (path_join directory (local ++ "_" ++ fst a)) = true) ->
    save_each m directory default_name_format [] atts fs
    = (Ok (map (fun a => local ++ "_" ++ fst a) atts),
       written directory (fun a => local ++ "_" ++ fst a) atts fs).
Proof.
  intros Hs. induction atts as [|[filename data] tl IH]; intros fs Hw.
  - reflexivity.
  - cbn [save_each]. unfold bind, lift. rewrite Hs. reduce_run.
    rewrite format_default. reduce_run.
    pose proof (Hw (filename, data) (or_introl eq_refl)) as Hhere.
    cbn [fst] in Hhere.
    assert (Hwr : write_file (path_join directory (local ++ "_" ++ filename)) data fs
                  = (Ok tt, snd (write_file (path_join directory (local ++ "_" ++ filename)) data fs))).
    { unfold write_file. rewrite Hhere. reflexivity. }
    rewrite Hwr. reduce_run.
    rewrite IH.
    + reflexivity.
    + intros a Ha. rewrite write_file_writable. apply Hw. right; exact Ha.
Qed.

End Attachments.

(** C8: with the default format [{short_id}_{name}], [save_attachments]
    writes one file per attachment, in attachment order, named by the part
    of the message id before [@] without its leading [<], an underscore and
    the attachment's name, and returns those names; for the id
    [<abc123@mail.example>] and the single attachment [report.pdf] it
    writes [abc123_report.pdf] into the directory and returns
    [['abc123_report.pdf']]. *)
Theorem save_attachments_default_names :
  forall {R : Runtime} (m : Message) (directory : string) (fs : filesystem),
    (forall local rest,
        m_id m = Some ("<" ++ local ++ "@" ++ rest) ->
        has_char "@" local = false ->
        (forall a, In a (m_attachments m) ->
           fs_writable fs (path_join directory (local ++ "_" ++ fst a)) = true) ->
        short_id m = Ok local
        /\ save_attachments m directory default_name_format [] fs
           = (Ok (map (fun a => local ++ "_" ++ fst a) (m_attachments m)),
              written directory (fun a => local ++ "_" ++ fst a)
                      (m_attachments m) fs))
    /\ (forall data,
          m_id m = Some "<abc123@mail.example>" ->
          m_attachments m = [("report.pdf", data)] ->
          fs_writable fs (path_join directory "abc123_report.pdf") = true ->
          fst (save_attachments m directory default_name_format [] fs)
          = Ok ["abc123_report.pdf"]
          /\ read_file (snd (save_attachments m directory default_name_format [] fs))
                       (path_join directory "abc123_report.pdf")
             = Some data).
Proof.
  intros R m directory fs. split.
  - intros local rest Hid Hl Hw.
    pose proof (short_id_of_bracketed m local rest Hid Hl) as Hs.
    split; [exact Hs|].
    unfold save_attachments. apply save_each_default; assumption.
  - intros data Hid Hatt Hw.
    pose proof (short_id_of_bracketed m "abc123" "mail.example>" Hid eq_refl) as Hs.
    unfold save_attachments.
    rewrite (save_each_default m directory "abc123" Hs (m_attachments m) fs).
    + rewrite Hatt. cbn [map fst snd written fold_left append].
      split; [reflexivity|].
      unfold write_file. rewrite Hw. cbn [snd fs_files].
      unfold read_file. cbn [find fst fs_files]. rewrite String.eqb_refl.
      reflexivity.
    + rewrite Hatt. intros a [Ha|[]]. subst a. exact Hw.
Qed.

Lemma save_attachments_default_names_witness :
  fst (save_attachments Sample.report_message "/tmp/out" default_name_format []
         Sample.disk)
  = Ok ["abc123_report.pdf"]
  /\ read_file (snd (save_attachments Sample.report_message "/tmp/out"
                       default_name_format [] Sample.disk))
               "/tmp/out/abc123_report.pdf"
     = Some "%PDF-1.4".
Proof.
  destruct (save_attachments_default_names Sample.report_message "/tmp/out"
              Sample.disk) as [_ Hscenario].
  apply (Hscenario "%PDF-1.4"); reflexivity.
Defined.

(** * Further properties of the module *)

(** ** Construction *)

Section Construction.
Context {R : Runtime}.
Variable srv : Server.

(** The constructor on a connection that is never dropped. *)
Lemma Mailer_init_live fuel u p h port d ds boxes :
  fst (next_dial ds) = Connects None ->
  srv_refuses srv LOGIN = false ->
  listing srv = Ok boxes ->
  Mailer_init srv (get_mailboxes srv fuel) u p h port d ds
  = if mem d boxes
    then (Ok (constructed srv u p h port d), snd (next_dial ds))
    else (Raise (ValueError
                   ("Typed invalid mailbox name as default_box kwarg: " ++ d)),
          snd (next_dial ds)).
Proof.
  intros Hd Hlog Hl. unfold Mailer_init.
  destruct (next_dial ds) as [dl ds'] eqn:E. cbn [fst snd] in *. subst dl.
  unfold bind, cmd_login, bind.
  set (fresh := {| username := u; password := p; default_box := d; host := h;
                   port := port; selected := None; ttl := None |}).
  assert (Hst : stable {| self := fresh; dials := ds' |}) by reflexivity.
  rewrite (tick_stable _ Hst). reduce_run. rewrite Hlog. unfold ret. reduce_run.
  rewrite (get_mailboxes_stable srv fuel _ Hst), Hl. reduce_run.
  destruct (mem d boxes); [|reflexivity].
  reduce_run. rewrite (cmd_select_stable srv d _ Hst). reflexivity.
Qed.

End Construction.

(** X1: on a connection that is never dropped and accepts the login,
    [Mailer(...)] raises the [ValueError] naming [default_box] when
    [get_mailboxes()] does not list it.  When it lists it, the constructor
    sends the SELECT of [default_box], does not look at its status and
    returns a mailer that keeps its five arguments: the default folder is
    selected when the server has a folder of that name and accepts the
    SELECT, and no folder is selected when the server refuses it. *)
Theorem Mailer_new_checks_default_box :
  forall {R : Runtime} (srv : Server) (fuel : nat) (u p h : string) (port : Z)
         (d : string) (ds : list dial) (boxes : list string),
    fst (next_dial ds) = Connects None ->
    srv_refuses srv LOGIN = false ->
    listing srv = Ok boxes ->
    (In d boxes ->
       Mailer_new srv fuel u p h port d ds
       = (Ok {| username := u; password := p; default_box := d; host := h;
                port := port; selected := chosen srv d; ttl := None |},
          snd (next_dial ds))
       /\ (forall fd, find_folder srv d = Some fd ->
            srv_refuses srv SELECT = false ->
            Mailer_new srv fuel u p h port d ds
            = (Ok {| username := u; password := p; default_box := d; host := h;
                     port := port; selected := Some d; ttl := None |},
               snd (next_dial ds)))
       /\ (srv_refuses srv SELECT = true ->
            Mailer_new srv fuel u p h port d ds
            = (Ok {| username := u; password := p; default_box := d; host := h;
                     port := port; selected := None; ttl := None |},
               snd (next_dial ds))))
    /\ (~ In d boxes ->
          Mailer_new srv fuel u p h port d ds
          = (Raise (ValueError
                      ("Typed invalid mailbox name as default_box kwarg: " ++ d)),
             snd (next_dial ds))).
Proof.
  intros R srv fuel u p h port d ds boxes Hd Hlog Hl.
  unfold Mailer_new. rewrite (Mailer_init_live srv fuel u p h port d ds boxes Hd Hlog Hl).
  split; intro Hin.
  - rewrite (proj2 (mem_In d boxes) Hin). unfold constructed, chosen.
    split; [reflexivity|]. split.
    + intros fd Hfd Hsel. rewrite Hfd, Hsel. reflexivity.
    + intros Hsel. rewrite Hsel. destruct (find_folder srv d); reflexivity.
  - rewrite (mem_not_In d boxes Hin). reflexivity.
Qed.

Lemma Mailer_new_checks_default_box_witness :
  Mailer_new Sample.server 0 "bob" "secret" "imap.mail.example" 993 "INBOX" []
  = (Ok Sample.mailer, [])
  /\ Mailer_new Cases.server_no_select 0 "bob" "secret" "imap.mail.example" 993
                "INBOX" []
     = (Ok {| username := "bob"; password := "secret"; default_box := "INBOX";
              host := "imap.mail.example"; port := 993;
              selected := None; ttl := None |}, [])
  /\ Mailer_new Sample.server 0 "bob" "secret" "imap.mail.example" 993 "Spam" []
     = (Raise (ValueError "Typed invalid mailbox name as default_box kwarg: Spam"),
        []).
Proof.
  destruct (Mailer_new_checks_default_box Sample.server 0 "bob" "secret"
              "imap.mail.example" 993 "INBOX" [] ["INBOX"; "Work"])
    as [Hok _]; [reflexivity | reflexivity | reflexivity |].
  destruct (Mailer_new_checks_default_box Cases.server_no_select 0 "bob" "secret"
              "imap.mail.example" 993 "INBOX" [] ["INBOX"; "Work"])
    as [Hno _]; [reflexivity | reflexivity | reflexivity |].
  destruct (Mailer_new_checks_default_box Sample.server 0 "bob" "secret"
              "imap.mail.example" 993 "Spam" [] ["INBOX"; "Work"])
    as [_ Hbad]; [reflexivity | reflexivity | reflexivity |].
  destruct (Hok (or_introl eq_refl)) as (_ & Hsel & _).
  destruct (Hno (or_introl eq_refl)) as (_ & _ & Href).
  split; [exact (Hsel (Sample.folder "INBOX" Sample.ten) eq_refl eq_refl)|].
  split; [exact (Href eq_refl)|].
  apply Hbad. simpl. intros [Hx | [Hx | []]]; discriminate Hx.
Defined.

(** X2: the constructors of [__init__.py], called without [default_box],
    pass ['inbox'] to [Mailer], which compares it as it is: on an account
    whose folder list has no entry spelled [inbox] they raise the
    [ValueError] about [default_box]. *)
Theorem provider_constructors_need_lowercase_inbox :
  forall {R : Runtime} (srv : Server) (fuel : nat) (u p : string)
         (ds : list dial) (boxes : list string),
    fst (next_dial ds) = Connects None ->
    srv_refuses srv LOGIN = false ->
    listing srv = Ok boxes ->
    ~ In "inbox" boxes ->
    let failure :=
      (Raise (ValueError "Typed invalid mailbox name as default_box kwarg: inbox"),
       snd (next_dial ds)) in
    yandexMailer srv fuel u p None ds = failure
    /\ mailruMailer srv fuel u p None ds = failure
    /\ gmailMailer srv fuel u p None ds = failure.
Proof.
  intros R srv fuel u p ds boxes Hd Hlog Hl Hnin failure.
  unfold yandexMailer, mailruMailer, gmailMailer, Mailer_new, or_inbox.
  rewrite !(Mailer_init_live srv fuel u p _ 993 "inbox" ds boxes Hd Hlog Hl).
  rewrite (mem_not_In "inbox" boxes Hnin). repeat split; reflexivity.
Qed.

Lemma provider_constructors_need_lowercase_inbox_witness :
  gmailMailer Sample.server 0 "bob" "secret" None []
  = (Raise (ValueError "Typed invalid mailbox name as default_box kwarg: inbox"),
     []).
Proof.
  destruct (provider_constructors_need_lowercase_inbox Sample.server 0 "bob"
              "secret" [] ["INBOX"; "Work"]) as [_ [_ Hg]];
    [ reflexivity | reflexivity | reflexivity
    | simpl; intros [Hx|[Hx|[]]]; discriminate Hx | exact Hg ].
Defined.

(** ** Folder names *)

Lemma split_go_no_sep sep s : forall cur,
  occurs sep s = false -> split_go sep s 0 cur = [cur ++ s].
Proof.
  induction s as [|c s IH]; intros cur Ho.
  - cbn [split_go]. rewrite append_empty. reflexivity.
  - cbn [occurs] in Ho. apply orb_false_elim in Ho. destruct Ho as [Hp Ho].
    cbn [split_go]. rewrite Hp, (IH _ Ho).
    unfold of_char. rewrite append_assoc3. reflexivity.
Qed.

Lemma split_last_no_sep sep s : occurs sep s = false -> split_last sep s = s.
Proof.
  intro Ho. unfold split_last, split. rewrite (split_go_no_sep sep s _ Ho).
  reflexivity.
Qed.

(** X3: when the text of a LIST line, its double quotes removed, holds
    neither [" / "] nor [" | "] (as with a server whose hierarchy delimiter
    is a dot), the name [get_mailboxes] derives from the line is that whole
    text, flags and delimiter included. *)
Theorem leaf_name_without_separator :
  forall (line : string),
    occurs " | " (remove_char dq line) = false ->
    occurs " / " (remove_char dq line) = false ->
    leaf_name line = remove_char dq line.
Proof.
  intros line Hbar Hslash. unfold leaf_name.
  rewrite (split_last_no_sep " | " _ Hbar).
  apply split_last_no_sep. exact Hslash.
Qed.

Lemma leaf_name_without_separator_witness :
  leaf_name Cases.dotted_line = "(\HasNoChildren) . INBOX".
Proof.
  apply (leaf_name_without_separator Cases.dotted_line); reflexivity.
Defined.

Lemma prefix_same c s1 s2 :
  String.prefix (String c s1) (String c s2) = String.prefix s1 s2.
Proof.
  change (String.prefix (String c s1) (String c s2))
    with (if ascii_dec c c then String.prefix s1 s2 else false).
  destruct (ascii_dec c c) as [_|Hne]; [reflexivity|contradiction].
Qed.

Lemma prefix_slash_sep c s :
  String.prefix " / " (String c s)
  = Ascii.eqb " " c && String.prefix "/ " s.
Proof.
  change (String.prefix " / " (String c s))
    with (if ascii_dec " " c then String.prefix "/ " s else false).
  destruct (ascii_dec " " c) as [Heq|Hne].
  - subst c. reflexivity.
  - rewrite (proj2 (Ascii.eqb_neq " " c) Hne). reflexivity.
Qed.

Lemma prefix_needs_slash s :
  String.prefix "/ " s = true -> exists s', s = String "/" s'.
Proof.
  destruct s as [|c s]; [discriminate|].
  change (String.prefix "/ " (String c s))
    with (if ascii_dec "/" c then String.prefix " " s else false).
  destruct (ascii_dec "/" c) as [Heq|Hne]; [|discriminate].
  subst c. intros _. exists s. reflexivity.
Qed.

Lemma split_go_match sep c s cur :
  String.prefix sep (String c s) = true ->
  split_go sep (String c s) 0 cur
  = cur :: split_go sep s (String.length sep - 1) EmptyString.
Proof. intro H. cbn [split_go]. rewrite H. reflexivity. Qed.

Lemma split_go_miss sep c s cur :
  String.prefix sep (String c s) = false ->
  split_go sep (String c s) 0 cur = split_go sep s 0 (cur ++ of_char c).
Proof. intro H. cbn [split_go]. rewrite H. reflexivity. Qed.

Lemma split_go_skip sep c s k cur :
  split_go sep (String c s) (S k) cur = split_go sep s k cur.
Proof. reflexivity. Qed.

(** The piece after the separator that follows a text without slash. *)
Lemma split_go_after_flags name flags : forall cur,
  has_char "/" flags = false ->
  occurs " / " name = false ->
  last (split_go " / " (flags ++ " / " ++ name) 0 cur) EmptyString = name.
Proof.
  intros cur Hf Hn. revert cur Hf.
  induction flags as [|c flags IH]; intros cur Hf.
  - change (EmptyString ++ " / " ++ name)
      with (String " " (String "/" (String " " name))).
    rewrite split_go_match by (rewrite !prefix_same; destruct name; reflexivity).
    change (String.length " / " - 1)%nat with 2%nat.
    rewrite !split_go_skip.
    rewrite (split_go_no_sep " / " name EmptyString Hn). reflexivity.
  - cbn [has_char] in Hf. apply orb_false_elim in Hf. destruct Hf as [Hc Hf].
    change (String c flags ++ " / " ++ name)
      with (String c (flags ++ " / " ++ name)).
    rewrite split_go_miss.
    + apply IH. exact Hf.
    + rewrite prefix_slash_sep.
      assert (Hp : String.prefix "/ " (flags ++ " / " ++ name) = false).
      { destruct (String.prefix "/ " (flags ++ " / " ++ name)) eqn:E; [|reflexivity].
        destruct (prefix_needs_slash _ E) as [s' Hs'].
        destruct flags as [|c' flags']; [discriminate Hs'|].
        cbn [append] in Hs'. inversion Hs'; subst c'.
        cbn [has_char] in Hf. rewrite Ascii.eqb_refl in Hf. discriminate Hf. }
      rewrite Hp. apply andb_false_r.
Qed.

(** X4: for a LIST line that reads, its double quotes removed,
    [flags / name] with no slash among the flags, no [" | "] at all and no
    [" / "] inside the name, [get_mailboxes] derives the whole [name], a
    nested one such as [Work/2024] included. *)
Theorem leaf_name_of_slash_line :
  forall (line flags name : string),
    remove_char dq line = flags ++ " / " ++ name ->
    has_char "/" flags = false ->
    occurs " | " (remove_char dq line) = false ->
    occurs " / " name = false ->
    leaf_name line = name.
Proof.
  intros line flags name Hline Hf Hbar Hn. unfold leaf_name.
  rewrite (split_last_no_sep " | " _ Hbar), Hline.
  unfold split_last, split. apply split_go_after_flags; assumption.
Qed.

Lemma leaf_name_of_slash_line_witness :
  leaf_name (Sample.line_of "Work/2024") = "Work/2024".
Proof.
  apply (leaf_name_of_slash_line (Sample.line_of "Work/2024")
           "(\HasNoChildren)" "Work/2024"); reflexivity.
Defined.

(** ** Listing, searching and reconnecting *)

Lemma leaf_names_of_lines (fs : list Folder) :
  leaf_names (map (fun f => Some (fd_line f)) fs)
  = Ok (map (fun f => leaf_name (fd_line f)) fs).
Proof.
  induction fs as [|f tl IH]; [reflexivity|].
  cbn [map leaf_names]. rewrite IH. reflexivity.
Qed.

(** X5: on a session that is not dropped, [get_mailboxes()] leaves the
    mailer as it is; it returns the empty list when LIST is answered
    otherwise than [OK], the names derived from the lines of the answer when
    the account has folders, and raises [AttributeError] when the answer
    holds no line. *)
Theorem get_mailboxes_on_live_session :
  forall {R : Runtime} (srv : Server) (fuel : nat) (e : env),
    stable e ->
    snd (get_mailboxes srv fuel e) = e
    /\ (srv_refuses srv LIST = true -> fst (get_mailboxes srv fuel e) = Ok [])
    /\ (srv_refuses srv LIST = false -> srv_folders srv <> [] ->
          fst (get_mailboxes srv fuel e)
          = Ok (map (fun f => leaf_name (fd_line f)) (srv_folders srv)))
    /\ (srv_refuses srv LIST = false -> srv_folders srv = [] ->
          fst (get_mailboxes srv fuel e)
          = Raise (AttributeError "'NoneType' object has no attribute 'decode'")).
Proof.
  intros R srv fuel e H. rewrite (get_mailboxes_stable srv fuel e H).
  cbn [fst snd]. unfold listing, list_lines.
  split; [reflexivity|]. split; [|split].
  - intros ->. reflexivity.
  - intros -> Hne. destruct (srv_folders srv) as [|f tl] eqn:E; [contradiction|].
    apply leaf_names_of_lines.
  - intros -> ->. reflexivity.
Qed.

Lemma get_mailboxes_on_live_session_witness :
  get_mailboxes Sample.server 0 Sample.start = (Ok ["INBOX"; "Work"], Sample.start)
  /\ get_mailboxes Cases.server_no_list 0 Sample.start = (Ok [], Sample.start).
Proof.
  destruct (get_mailboxes_on_live_session Sample.server 0 Sample.start eq_refl)
    as [Hs [_ [Hok _]]].
  destruct (get_mailboxes_on_live_session Cases.server_no_list 0 Sample.start eq_refl)
    as [Hs' [Hno _]].
  split.
  - rewrite (surjective_pairing (get_mailboxes Sample.server 0 Sample.start)).
    rewrite Hs, Hok; [reflexivity | reflexivity | discriminate].
  - rewrite (surjective_pairing (get_mailboxes Cases.server_no_list 0 Sample.start)).
    rewrite Hs', Hno; reflexivity.
Defined.

Lemma numbers_upto l : forall k, map fst (numbered k l) = upto k (List.length l).
Proof.
  induction l as [|x tl IH]; intro k; [reflexivity|].
  cbn [numbered map fst List.length upto]. rewrite IH. reflexivity.
Qed.

Lemma upto_length n : forall k, List.length (upto k n) = n.
Proof. induction n as [|n IH]; intro k; simpl; [|rewrite IH]; reflexivity. Qed.

Lemma upto_nth n : forall k i, (i < n)%nat ->
  nth_error (upto k n) i = Some (k + Z.of_nat i).
Proof.
  induction n as [|n IH]; intros k i Hi; [lia|].
  destruct i as [|i]; cbn [upto nth_error].
  - f_equal. lia.
  - rewrite (IH (k + 1) i) by lia. f_equal. lia.
Qed.

(** X6: for a folder of the account, on a live session that answers SELECT
    and SEARCH, [get_messages(f)] returns the sequence numbers
    [1, 2, ..., count]: as many as the folder has messages, the [i]-th
    one (from 0) being [i + 1]. *)
Theorem get_messages_returns_sequence_numbers :
  forall {R : Runtime} (srv : Server) (fuel : nat) (e : env) (f : string)
         (fd : Folder) (boxes : list string),
    stable e ->
    fst (get_mailboxes srv fuel e) = Ok boxes -> In f boxes ->
    find_folder srv f = Some fd ->
    srv_refuses srv SELECT = false -> srv_refuses srv SEARCH = false ->
    let n := List.length (fd_msgs fd) in
    fst (get_messages srv fuel f e) = Ok (Ids (upto 1 n))
    /\ List.length (upto 1 n) = n
    /\ forall i, (i < n)%nat -> nth_error (upto 1 n) i = Some (1 + Z.of_nat i).
Proof.
  intros R srv fuel e f fd boxes H Hb Hin Hfd Hsel Hsea n.
  pose proof (listed srv fuel e boxes H Hb) as Hl.
  rewrite (get_messages_run srv fuel e f fd boxes H Hl (proj2 (mem_In f boxes) Hin) Hfd Hsel).
  unfold search_of, numbers. rewrite Hsea, numbers_upto.
  split; [reflexivity|]. split; [apply upto_length|apply upto_nth].
Qed.

Lemma get_messages_returns_sequence_numbers_witness :
  fst (get_messages Sample.server 0 "INBOX" Sample.start)
  = Ok (Ids [1; 2; 3; 4; 5; 6; 7; 8; 9; 10]).
Proof.
  destruct (get_messages_returns_sequence_numbers Sample.server 0 Sample.start
              "INBOX" (Sample.folder "INBOX" Sample.ten) ["INBOX"; "Work"])
    as [Hr _];
    [ reflexivity | reflexivity | simpl; auto | reflexivity | reflexivity
    | reflexivity | exact Hr ].
Defined.

Section Reconnecting.
Context {R : Runtime}.
Variable srv : Server.

Lemma tick_dropped e : dropped e -> tick e = (Raise IMAP4_abort, e).
Proof. unfold dropped, tick; intros ->; reflexivity. Qed.

(** [self.copy()] when the next connection is never dropped. *)
Lemma copy_live fuel e boxes :
  fst (next_dial (dials e)) = Connects None ->
  srv_refuses srv LOGIN = false ->
  listing srv = Ok boxes ->
  In (default_box (self e)) boxes ->
  copy srv (get_mailboxes srv fuel) e
  = (Ok (constructed srv (username (self e)) (password (self e)) (host (self e))
                     (port (self e)) (default_box (self e))),
     {| self := self e; dials := snd (next_dial (dials e)) |}).
Proof.
  intros Hd Hlog Hl Hin. unfold copy.
  rewrite (Mailer_init_live srv fuel _ _ _ _ _ _ boxes Hd Hlog Hl).
  rewrite (proj2 (mem_In _ boxes) Hin). reflexivity.
Qed.

(** [get_mailboxes] on a dropped session: the list comes from a copy. *)
Lemma get_mailboxes_dropped fuel e boxes :
  dropped e ->
  fst (next_dial (dials e)) = Connects None ->
  srv_refuses srv LOGIN = false ->
  listing srv = Ok boxes ->
  In (default_box (self e)) boxes ->
  get_mailboxes srv (S fuel) e
  = (Ok boxes, {| self := self e; dials := snd (next_dial (dials e)) |}).
Proof.
  intros Hdr Hd Hlog Hl Hin.
  cbn [get_mailboxes]. unfold try_abort, bind, cmd_list, bind.
  rewrite (tick_dropped e Hdr). reduce_run.
  rewrite (copy_live fuel e boxes Hd Hlog Hl Hin). reduce_run.
  unfold on. cbn [dials self].
  rewrite get_mailboxes_stable by reflexivity. rewrite Hl. reflexivity.
Qed.

End Reconnecting.

(** X7: the property [messages] of a mailer whose session was dropped does
    not retry the search: its handler builds a copy of the mailer (one
    connection is opened) and then reads the unbound name [mailbox_name],
    so [NameError] is raised. *)
Theorem messages_on_dropped_session :
  forall {R : Runtime} (srv : Server) (fuel : nat) (e : env) (f : string)
         (fd : Folder) (boxes : list string),
    dropped e ->
    selected (self e) = Some f -> find_folder srv f = Some fd ->
    fst (next_dial (dials e)) = Connects None ->
    srv_refuses srv LOGIN = false ->
    listing srv = Ok boxes -> In (default_box (self e)) boxes ->
    messages srv (S fuel) e
    = (Raise (NameError "mailbox_name"),
       {| self := self e; dials := snd (next_dial (dials e)) |}).
Proof.
  intros R srv fuel e f fd boxes Hdr Hsel Hfd Hd Hlog Hl Hin.
  unfold messages, try_abort, bind, cmd_search_all, bind, need_selected.
  rewrite Hsel, Hfd, (tick_dropped e Hdr). reduce_run.
  rewrite (copy_live srv fuel e boxes Hd Hlog Hl Hin). reflexivity.
Qed.

Lemma messages_on_dropped_session_witness :
  messages Sample.server 1 Cases.after_drop
  = (Raise (NameError "mailbox_name"),
     {| self := self Cases.after_drop; dials := [Connects None] |}).
Proof.
  apply (messages_on_dropped_session Sample.server 0 Cases.after_drop "INBOX"
           (Sample.folder "INBOX" Sample.ten) ["INBOX"; "Work"]);
    [ reflexivity | reflexivity | reflexivity | reflexivity | reflexivity
    | reflexivity | simpl; auto ].
Defined.

(** X8: when the session of a mailer was dropped before the call and the
    next two connections succeed, [get_message(msg_id, f)] for a folder of
    the account returns what it returns on a live session: the list of
    folders is read through a first copy, the SELECT on the dropped session
    aborts, and the call is made again on a second copy.  The mailer itself
    is left as it was. *)
Theorem get_message_retries_on_copy :
  forall {R : Runtime} (srv : Server) (fuel : nat) (e e0 : env) (f : string)
         (fd : Folder) (boxes : list string) (ds : list dial) (k : Z),
    dropped e ->
    dials e = Connects None :: Connects None :: ds ->
    srv_refuses srv LOGIN = false -> srv_refuses srv SELECT = false ->
    listing srv = Ok boxes ->
    In (default_box (self e)) boxes -> In f boxes ->
    find_folder srv f = Some fd ->
    stable e0 ->
    fst (get_message srv (S fuel) k f e) = fst (get_message srv fuel k f e0)
    /\ snd (get_message srv (S fuel) k f e) = {| self := self e; dials := ds |}.
Proof.
  intros R srv fuel e e0 f fd boxes ds k Hdr Hds Hlog Hsel Hl Hdef Hin Hfd H0.
  pose proof (proj2 (mem_In f boxes) Hin) as Hm.
  set (fresh := constructed srv (username (self e)) (password (self e))
                            (host (self e)) (port (self e)) (default_box (self e))).
  assert (Hrun : get_message srv (S fuel) k f e
                 = (fst (get_message srv fuel k f {| self := fresh; dials := ds |}),
                    {| self := self e;
                       dials := dials (snd (get_message srv fuel k f
                                              {| self := fresh; dials := ds |})) |})).
  { rewrite get_message_eq.
    unfold try_abort_locals, bind, in_env. reduce_run.
    rewrite (get_mailboxes_dropped srv fuel e boxes Hdr) by
      (first [ rewrite Hds; reflexivity | assumption ]).
    reduce_run. rewrite Hm. reduce_run.
    unfold cmd_select at 1. unfold bind at 1.
    rewrite tick_dropped by exact Hdr. reduce_run.
    rewrite (copy_live srv fuel _ boxes) by
      (first [ cbn [dials self]; rewrite Hds; reflexivity | assumption ]).
    reduce_run. unfold on. cbn [dials self]. rewrite Hds. cbn [next_dial snd].
    fold fresh.
    destruct (get_message srv fuel k f {| self := fresh; dials := ds |}) as [r e'].
    reflexivity. }
  rewrite Hrun. cbn [fst snd].
  rewrite (get_message_run srv fuel _ f fd boxes k
             (eq_refl : stable {| self := fresh; dials := ds |}) Hl Hm Hfd Hsel).
  rewrite (get_message_run srv fuel e0 f fd boxes k H0 Hl Hm Hfd Hsel).
  cbv zeta.
  destruct (srv_refuses srv FETCH); [split; reflexivity|].
  destruct ((1 <=? resolved srv fd k) && (resolved srv fd k <=? count fd));
    split; reflexivity.
Qed.

Lemma get_message_retries_on_copy_witness :
  fst (get_message Sample.server 1 3 "Work" Cases.after_drop)
  = fst (get_message Sample.server 0 3 "Work" Sample.start)
  /\ snd (get_message Sample.server 1 3 "Work" Cases.after_drop)
     = {| self := self Cases.after_drop; dials := [] |}.
Proof.
  apply (get_message_retries_on_copy Sample.server 0 Cases.after_drop Sample.start
           "Work" (Sample.folder "Work" (map Sample.mail ["w1"; "w2"; "w3"; "w4"]))
           ["INBOX"; "Work"] [] 3);
    [ reflexivity | reflexivity | reflexivity | reflexivity | reflexivity
    | simpl; auto | simpl; auto | reflexivity | reflexivity ].
Defined.

(** X9: when the server answers the search with [NO], [Mailer.messages]
    is the status text and [len(self.messages)] is [2]: a non-positive
    [msg_id] is then offset by 2 instead of the message count, so that
    [get_message(0, f)] returns the second message of the folder and
    [get_message(-1, f)] the first. *)
Theorem get_message_offset_when_search_refused :
  forall {R : Runtime} (srv : Server) (fuel : nat) (e : env) (f : string)
         (fd : Folder) (boxes : list string) (k : Z),
    stable e ->
    fst (get_mailboxes srv fuel e) = Ok boxes -> In f boxes ->
    find_folder srv f = Some fd ->
    srv_refuses srv SELECT = false -> srv_refuses srv FETCH = false ->
    srv_refuses srv SEARCH = true ->
    k <= 0 -> 1 <= k + 2 <= count fd ->
    exists raw,
      nth_error (fd_msgs fd) (Z.to_nat (k + 1)) = Some raw
      /\ fst (get_message srv fuel k f e) = got (Message_init raw (Some f)).
Proof.
  intros R srv fuel e f fd boxes k H Hb Hin Hfd Hsel Hfe Hsea Hk [Hlo Hhi].
  pose proof (listed srv fuel e boxes H Hb) as Hl.
  assert (Hr : resolved srv fd k = k + 2).
  { unfold resolved, search_of. rewrite Hsea.
    destruct (k <=? 0) eqn:E; [reflexivity|apply Z.leb_gt in E; lia]. }
  destruct (between_one (fd_msgs fd) (k + 2) Hlo Hhi) as [raw [Hn Hbt]].
  exists raw. split; [replace (k + 1) with (k + 2 - 1) by lia; exact Hn|].
  rewrite (get_message_run srv fuel e f fd boxes k H Hl (proj2 (mem_In f boxes) Hin) Hfd Hsel).
  cbv zeta. rewrite Hfe, Hr.
  replace ((1 <=? k + 2) && (k + 2 <=? count fd)) with true
    by (symmetry; apply andb_true_intro; split; apply Z.leb_le; assumption).
  unfold messages_between. fold (between (fd_msgs fd) (k + 2) (k + 2)).
  rewrite Hbt. reflexivity.
Qed.

Lemma get_message_offset_when_search_refused_witness :
  exists raw,
    nth_error (map Sample.mail ["w1"; "w2"; "w3"; "w4"]) 1 = Some raw
    /\ fst (get_message Cases.server_no_search 0 0 "Work" Sample.start)
       = got (Message_init raw (Some "Work")).
Proof.
  apply (get_message_offset_when_search_refused Cases.server_no_search 0
           Sample.start "Work"
           (Sample.folder "Work" (map Sample.mail ["w1"; "w2"; "w3"; "w4"]))
           ["INBOX"; "Work"] 0);
    [ reflexivity | reflexivity | simpl; auto | reflexivity | reflexivity
    | reflexivity | reflexivity | vm_compute; discriminate
    | vm_compute; split; discriminate ].
Defined.

(** ** Bounds and strides of slices *)

Section SliceBounds.
Context {R : Runtime}.
Variable srv : Server.

(** The fetch a slice makes once its bounds are offset and clamped. *)
Lemma slice_messages_clamped fuel e f fd boxes start stop step :
  stable e -> listing srv = Ok boxes -> In f boxes ->
  find_folder srv f = Some fd -> serves srv ->
  slice_messages srv fuel (Some start) (Some stop) f step e =
  let a := Z.max 1 (if start <=? 0 then start + count fd else start) in
  let b := Z.min (count fd) (if stop <=? 0 then stop + count fd else stop) in
  if (1 <=? Z.min a b) && (Z.max a b <=? count fd)
  then (gots (keep_stride f step 0
                (fetch_items (messages_between (fd_msgs fd)
                                (Z.min a b) (Z.max a b)))),
        select_in (Some f) e)
  else (Raise (IMAP4_error "FETCH command error: BAD"), select_in (Some f) e).
Proof.
  intros H Hl Hin Hfd [Hsel [Hsea Hfe]].
  rewrite (slice_messages_run srv fuel e f fd boxes start stop step H Hl
             (proj2 (mem_In f boxes) Hin) Hfd Hsel).
  cbv zeta. unfold resolved. rewrite Hfe, (len_search_of srv fd Hsea).
  reflexivity.
Qed.

(** A slice inside the folder, for a step other than zero. *)
Lemma slice_messages_in_range fuel e f fd boxes start stop step ms :
  stable e -> listing srv = Ok boxes -> In f boxes ->
  find_folder srv f = Some fd -> serves srv ->
  1 <= start -> start <= stop -> stop <= count fd ->
  parsed f (between (fd_msgs fd) start stop) ms ->
  step <> 0 ->
  fst (slice_messages srv fuel (Some start) (Some stop) f step e)
  = Ok (GotMessages (stride_from step 0 ms)).
Proof.
  intros H Hl Hin Hfd Hs H1 H2 H3 Hp Hstep.
  rewrite (slice_messages_clamped fuel e f fd boxes start stop step H Hl Hin Hfd Hs).
  cbv zeta.
  replace (start <=? 0) with false by (symmetry; apply Z.leb_gt; lia).
  replace (stop <=? 0) with false by (symmetry; apply Z.leb_gt; lia).
  replace (Z.max 1 start) with start by lia.
  replace (Z.min (count fd) stop) with stop by lia.
  replace (Z.min start stop) with start by lia.
  replace (Z.max start stop) with stop by lia.
  replace ((1 <=? start) && (stop <=? count fd)) with true
    by (symmetry; apply andb_true_intro; split; apply Z.leb_le; lia).
  unfold messages_between. fold (between (fd_msgs fd) start stop).
  cbn [fst]. rewrite (keep_stride_parsed f step _ Hstep ms start 0 Hp).
  reflexivity.
Qed.

End SliceBounds.

(** X10: in [slice_messages], a non-positive [start] counts from the end of
    the folder and is then raised to 1: the call with [start <= 0] is the
    call with [max(1, start + count)]. *)
Theorem slice_messages_start_from_end :
  forall {R : Runtime} (srv : Server) (fuel : nat) (e : env) (f : string)
         (fd : Folder) (boxes : list string) (start stop step : Z),
    stable e ->
    fst (get_mailboxes srv fuel e) = Ok boxes -> In f boxes ->
    find_folder srv f = Some fd -> serves srv ->
    start <= 0 ->
    slice_messages srv fuel (Some start) (Some stop) f step e
    = slice_messages srv fuel (Some (Z.max 1 (start + count fd))) (Some stop)
                     f step e.
Proof.
  intros R srv fuel e f fd boxes start stop step H Hb Hin Hfd Hs Hstart.
  pose proof (listed srv fuel e boxes H Hb) as Hl.
  rewrite !(slice_messages_clamped srv fuel e f fd boxes _ stop step H Hl Hin Hfd Hs).
  cbv zeta.
  replace (start <=? 0) with true by (symmetry; apply Z.leb_le; lia).
  replace (Z.max 1 (start + count fd) <=? 0) with false
    by (symmetry; apply Z.leb_gt; lia).
  replace (Z.max 1 (Z.max 1 (start + count fd)))
    with (Z.max 1 (start + count fd)) by lia.
  reflexivity.
Qed.

Lemma slice_messages_start_from_end_witness :
  slice_messages Sample.server 0 (Some (-1)) (Some 4) "Work" 1 Sample.start
  = slice_messages Sample.server 0 (Some 3) (Some 4) "Work" 1 Sample.start.
Proof.
  apply (slice_messages_start_from_end Sample.server 0 Sample.start "Work"
           (Sample.folder "Work" (map Sample.mail ["w1"; "w2"; "w3"; "w4"]))
           ["INBOX"; "Work"] (-1) 4 1);
    [ reflexivity | reflexivity | simpl; auto | reflexivity
    | repeat split; reflexivity | vm_compute; discriminate ].
Defined.

(** X11: in [slice_messages], an [end] beyond the folder is lowered to the
    message count, and a non-positive [end] counts from the end of the
    folder: the call with [end >= count] is the call with [count], and the
    call with [end <= 0 < end + count] is the call with [end + count]. *)
Theorem slice_messages_end_clamped :
  forall {R : Runtime} (srv : Server) (fuel : nat) (e : env) (f : string)
         (fd : Folder) (boxes : list string) (start stop step : Z),
    stable e ->
    fst (get_mailboxes srv fuel e) = Ok boxes -> In f boxes ->
    find_folder srv f = Some fd -> serves srv ->
    (count fd <= stop ->
       slice_messages srv fuel (Some start) (Some stop) f step e
       = slice_messages srv fuel (Some start) (Some (count fd)) f step e)
    /\ (stop <= 0 -> 0 < stop + count fd ->
          slice_messages srv fuel (Some start) (Some stop) f step e
          = slice_messages srv fuel (Some start) (Some (stop + count fd)) f step e).
Proof.
  intros R srv fuel e f fd boxes start stop step H Hb Hin Hfd Hs.
  pose proof (listed srv fuel e boxes H Hb) as Hl.
  assert (Hc : 0 <= count fd) by (unfold count; lia).
  split.
  - intro Hstop.
    rewrite !(slice_messages_clamped srv fuel e f fd boxes start _ step H Hl Hin Hfd Hs).
    cbv zeta.
    replace (Z.min (count fd) (if stop <=? 0 then stop + count fd else stop))
      with (count fd)
      by (destruct (stop <=? 0) eqn:E;
          [apply Z.leb_le in E|apply Z.leb_gt in E]; lia).
    replace (Z.min (count fd)
               (if count fd <=? 0 then count fd + count fd else count fd))
      with (count fd)
      by (destruct (count fd <=? 0) eqn:E;
          [apply Z.leb_le in E|apply Z.leb_gt in E]; lia).
    reflexivity.
  - intros Hneg Hpos.
    rewrite !(slice_messages_clamped srv fuel e f fd boxes start _ step H Hl Hin Hfd Hs).
    cbv zeta.
    replace (stop <=? 0) with true by (symmetry; apply Z.leb_le; lia).
    replace (stop + count fd <=? 0) with false
      by (symmetry; apply Z.leb_gt; lia).
    reflexivity.
Qed.

Lemma slice_messages_end_clamped_witness :
  slice_messages Sample.server 0 (Some 2) (Some 99) "Work" 1 Sample.start
  = slice_messages Sample.server 0 (Some 2) (Some 4) "Work" 1 Sample.start.
Proof.
  destruct (slice_messages_end_clamped Sample.server 0 Sample.start "Work"
              (Sample.folder "Work" (map Sample.mail ["w1"; "w2"; "w3"; "w4"]))
              ["INBOX"; "Work"] 2 99 1) as [Hbig _];
    [ reflexivity | reflexivity | simpl; auto | reflexivity
    | repeat split; reflexivity | ].
  apply Hbig. vm_compute. discriminate.
Defined.

(** X12: [slice_messages] with [step = 0] over a range inside the folder
    raises [ZeroDivisionError] (at the first fetched message), with
    [folder_name] left selected. *)
Theorem slice_messages_step_zero :
  forall {R : Runtime} (srv : Server) (fuel : nat) (e : env) (f : string)
         (fd : Folder) (boxes : list string) (start stop : Z),
    stable e ->
    fst (get_mailboxes srv fuel e) = Ok boxes -> In f boxes ->
    find_folder srv f = Some fd -> serves srv ->
    1 <= start -> start <= stop -> stop <= count fd ->
    slice_messages srv fuel (Some start) (Some stop) f 0 e
    = (Raise ZeroDivisionError, select_in (Some f) e).
Proof.
  intros R srv fuel e f fd boxes start stop H Hb Hin Hfd Hs H1 H2 H3.
  pose proof (listed srv fuel e boxes H Hb) as Hl.
  rewrite (slice_messages_clamped srv fuel e f fd boxes start stop 0 H Hl Hin Hfd Hs).
  cbv zeta.
  replace (start <=? 0) with false by (symmetry; apply Z.leb_gt; lia).
  replace (stop <=? 0) with false by (symmetry; apply Z.leb_gt; lia).
  replace (Z.max 1 start) with start by lia.
  replace (Z.min (count fd) stop) with stop by lia.
  replace (Z.min start stop) with start by lia.
  replace (Z.max start stop) with stop by lia.
  replace ((1 <=? start) && (stop <=? count fd)) with true
    by (symmetry; apply andb_true_intro; split; apply Z.leb_le; lia).
  unfold messages_between. fold (between (fd_msgs fd) start stop).
  pose proof (between_length (fd_msgs fd) start stop H1 H2 H3) as Hlen.
  destruct (between (fd_msgs fd) start stop) as [|raw tl];
    [simpl in Hlen; lia|reflexivity].
Qed.

Lemma slice_messages_step_zero_witness :
  fst (slice_messages Sample.server 0 (Some 1) (Some 2) "Work" 0 Sample.start)
  = Raise ZeroDivisionError.
Proof.
  rewrite (slice_messages_step_zero Sample.server 0 Sample.start "Work"
             (Sample.folder "Work" (map Sample.mail ["w1"; "w2"; "w3"; "w4"]))
             ["INBOX"; "Work"] 1 2);
    [ reflexivity | reflexivity | reflexivity | simpl; auto | reflexivity
    | repeat split; reflexivity | vm_compute; discriminate
    | vm_compute; discriminate | vm_compute; discriminate ].
Defined.

Section Strides.
Context {R : Runtime}.

Lemma filter_positions (p q : nat -> bool) (ms : list Message) : forall j,
  (forall k, p k = q k) ->
  map snd (filter (fun x => p (fst x)) (combine (seq j (List.length ms)) ms))
  = map snd (filter (fun x => q (fst x)) (combine (seq j (List.length ms)) ms)).
Proof.
  intros j Hpq. f_equal. apply filter_ext. intros [k m]. apply Hpq.
Qed.

Lemma even_position t k :
  1 <= t ->
  (position_in_fetched k mod (2 * t) =? 0) = (Z.of_nat k mod t =? 0).
Proof.
  intro Ht. unfold position_in_fetched.
  rewrite Z.mul_mod_distr_l by lia.
  destruct (Z.of_nat k mod t =? 0) eqn:E.
  - apply Z.eqb_eq in E. rewrite E. reflexivity.
  - apply Z.eqb_neq in E. apply Z.eqb_neq. lia.
Qed.

Lemma odd_position s k :
  1 <= s -> s mod 2 = 1 ->
  (position_in_fetched k mod s =? 0) = (Z.of_nat k mod s =? 0).
Proof.
  intros Hs Hodd. unfold position_in_fetched.
  assert (Hrel : Z.gcd s 2 = 1).
  { destruct (Z.gcd_divide_l s 2) as [a Ha].
    destruct (Z.gcd_divide_r s 2) as [b Hb].
    pose proof (Z.gcd_nonneg s 2) as Hg.
    destruct (Z.eq_dec (Z.gcd s 2) 1) as [H1|H1]; [exact H1|].
    assert (Hle : Z.gcd s 2 <= 2)
      by (apply Z.divide_pos_le; [lia|exists b; exact Hb]).
    assert (Hnz : Z.gcd s 2 <> 0)
      by (intro Hz; rewrite Hz in Hb; lia).
    assert (H2 : Z.gcd s 2 = 2) by lia.
    rewrite H2 in Ha. rewrite Ha, Z.mod_mul in Hodd by lia. discriminate Hodd. }
  destruct (Z.of_nat k mod s =? 0) eqn:E.
  - apply Z.eqb_eq in E. apply Z.eqb_eq.
    apply Z.mod_divide in E; [|lia]. apply Z.mod_divide; [lia|].
    apply Z.divide_mul_r. exact E.
  - apply Z.eqb_neq in E. apply Z.eqb_neq. intro Hc. apply E.
    apply Z.mod_divide in Hc; [|lia]. apply Z.mod_divide; [lia|].
    apply (Z.gauss s 2 (Z.of_nat k)); assumption.
Qed.

Lemma at_stride_even t ms : 1 <= t -> at_stride (2 * t) ms = every_nth t ms.
Proof.
  intro Ht. unfold at_stride, every_nth.
  apply (filter_positions (fun k => position_in_fetched k mod (2 * t) =? 0)
                          (fun k => Z.of_nat k mod t =? 0)).
  intro k. apply even_position. exact Ht.
Qed.

Lemma at_stride_odd s ms :
  1 <= s -> s mod 2 = 1 -> at_stride s ms = every_nth s ms.
Proof.
  intros Hs Hodd. unfold at_stride, every_nth.
  apply (filter_positions (fun k => position_in_fetched k mod s =? 0)
                          (fun k => Z.of_nat k mod s =? 0)).
  intro k. apply odd_position; assumption.
Qed.

Lemma every_nth_one ms : every_nth 1 ms = ms.
Proof.
  rewrite <- (at_stride_odd 1 ms) by (try lia; reflexivity).
  rewrite <- stride_from_at_stride. apply stride_from_one.
Qed.

End Strides.

Lemma every_nth_two_shorter {R : Runtime} (ms : list Message) :
  (2 <= List.length ms)%nat ->
  (List.length (every_nth 2 ms) < List.length ms)%nat.
Proof.
  intro Hlen. destruct ms as [|m0 [|m1 tl]]; simpl in Hlen; try lia.
  unfold every_nth. cbn [List.length seq combine filter fst].
  change (Z.of_nat 0 mod 2 =? 0) with true.
  change (Z.of_nat 1 mod 2 =? 0) with false.
  cbn [map List.length]. rewrite length_map.
  pose proof (filter_length_le
                (fun p : nat * Message => Z.of_nat (fst p) mod 2 =? 0)
                (combine (seq 2 (List.length tl)) tl)) as Hle.
  rewrite length_combine, length_seq, Nat.min_id in Hle. lia.
Qed.

(** C2 (code): for a folder of the account with [count] messages and
    [1 <= start <= end <= count], [slice_messages(start, end, f, step=1)]
    returns the [end - start + 1] messages of the range; with [step = 2]
    it returns the same list, every message of the range, and not the
    messages at the positions 0, 2, 4, ... of the range, which are fewer
    as soon as the range holds two messages: the index that is tested
    against [step] also counts the entry that closes each message in the
    answer to the FETCH. *)
Theorem slice_messages_step_two_keeps_all :
  forall {R : Runtime} (srv : Server) (fuel : nat) (e : env) (f : string)
         (fd : Folder) (boxes : list string) (start stop : Z)
         (ms : list Message),
    stable e ->
    fst (get_mailboxes srv fuel e) = Ok boxes -> In f boxes ->
    find_folder srv f = Some fd -> serves srv ->
    1 <= start -> start <= stop -> stop <= count fd ->
    parsed f (between (fd_msgs fd) start stop) ms ->
    fst (slice_messages srv fuel (Some start) (Some stop) f 1 e)
    = Ok (GotMessages ms)
    /\ Z.of_nat (List.length ms) = stop - start + 1
    /\ fst (slice_messages srv fuel (Some start) (Some stop) f 2 e)
       = Ok (GotMessages ms)
    /\ (start < stop ->
          (List.length (every_nth 2 ms) < List.length ms)%nat
          /\ fst (slice_messages srv fuel (Some start) (Some stop) f 2 e)
             <> Ok (GotMessages (every_nth 2 ms))).
Proof.
  intros R srv fuel e f fd boxes start stop ms H Hb Hin Hfd Hs H1 H2 H3 Hp.
  pose proof (listed srv fuel e boxes H Hb) as Hl.
  assert (Hlen : Z.of_nat (List.length ms) = stop - start + 1).
  { rewrite (parsed_length f _ ms Hp). apply between_length; assumption. }
  assert (Htwo : fst (slice_messages srv fuel (Some start) (Some stop) f 2 e)
                 = Ok (GotMessages ms)).
  { rewrite (slice_messages_in_range srv fuel e f fd boxes start stop 2 ms
               H Hl Hin Hfd Hs H1 H2 H3 Hp) by lia.
    rewrite stride_from_at_stride. change 2 with (2 * 1).
    rewrite at_stride_even by lia. rewrite every_nth_one. reflexivity. }
  split.
  { rewrite (slice_messages_in_range srv fuel e f fd boxes start stop 1 ms
               H Hl Hin Hfd Hs H1 H2 H3 Hp) by lia.
    rewrite stride_from_one. reflexivity. }
  split; [exact Hlen|]. split; [exact Htwo|].
  intro Hlt.
  assert (Hshort : (List.length (every_nth 2 ms) < List.length ms)%nat)
    by (apply every_nth_two_shorter; lia).
  split; [exact Hshort|].
  rewrite Htwo. intro Heq. injection Heq as Heq.
  rewrite <- Heq in Hshort. lia.
Qed.

Lemma slice_messages_step_two_keeps_all_witness :
  exists ms,
    map m_id ms = [Some "<w1@mail.example>"; Some "<w2@mail.example>";
                   Some "<w3@mail.example>"; Some "<w4@mail.example>"]
    /\ map m_id (every_nth 2 ms)
       = [Some "<w1@mail.example>"; Some "<w3@mail.example>"]
    /\ fst (slice_messages Sample.server 0 (Some 1) (Some 4) "Work" 2 Sample.start)
       = Ok (GotMessages ms)
    /\ fst (slice_messages Sample.server 0 (Some 1) (Some 4) "Work" 2 Sample.start)
       <> Ok (GotMessages (every_nth 2 ms)).
Proof.
  evar (ms : list Message).
  assert (Hall :
    Forall2 (fun raw m => Message_init raw (Some "Work") = Ok m)
            (between (fd_msgs (Sample.folder "Work"
                                 (map Sample.mail ["w1"; "w2"; "w3"; "w4"])))
                     1 4)
            ms).
  { subst ms.
    repeat (apply Forall2_cons; [vm_compute; reflexivity|]); apply Forall2_nil. }
  exists ms.
  destruct (slice_messages_step_two_keeps_all Sample.server 0 Sample.start "Work"
              (Sample.folder "Work" (map Sample.mail ["w1"; "w2"; "w3"; "w4"]))
              ["INBOX"; "Work"] 1 4 ms
              eq_refl eq_refl (or_intror (or_introl eq_refl)) eq_refl
              (conj eq_refl (conj eq_refl eq_refl))
              ltac:(vm_compute; discriminate) ltac:(vm_compute; discriminate)
              ltac:(vm_compute; discriminate) Hall)
    as (_ & _ & Htwo & Hne).
  split; [reflexivity|]. split; [reflexivity|]. split; [exact Htwo|].
  apply Hne. reflexivity.
Defined.

(** X13: over a range inside the folder, [slice_messages] with an even
    step [2 * t] returns every [t]-th message of the range, the first one
    included; with [step = 2] it returns every message, as with
    [step = 1]. *)
Theorem slice_messages_even_step :
  forall {R : Runtime} (srv : Server) (fuel : nat) (e : env) (f : string)
         (fd : Folder) (boxes : list string) (start stop : Z)
         (ms : list Message),
    stable e ->
    fst (get_mailboxes srv fuel e) = Ok boxes -> In f boxes ->
    find_folder srv f = Some fd -> serves srv ->
    1 <= start -> start <= stop -> stop <= count fd ->
    parsed f (between (fd_msgs fd) start stop) ms ->
    (forall t, 1 <= t ->
       fst (slice_messages srv fuel (Some start) (Some stop) f (2 * t) e)
       = Ok (GotMessages (every_nth t ms)))
    /\ fst (slice_messages srv fuel (Some start) (Some stop) f 2 e)
       = Ok (GotMessages ms).
Proof.
  intros R srv fuel e f fd boxes start stop ms H Hb Hin Hfd Hs H1 H2 H3 Hp.
  pose proof (listed srv fuel e boxes H Hb) as Hl.
  assert (Ht : forall t, 1 <= t ->
            fst (slice_messages srv fuel (Some start) (Some stop) f (2 * t) e)
            = Ok (GotMessages (every_nth t ms))).
  { intros t Ht.
    rewrite (slice_messages_in_range srv fuel e f fd boxes start stop (2 * t) ms
               H Hl Hin Hfd Hs H1 H2 H3 Hp) by lia.
    rewrite stride_from_at_stride, at_stride_even by exact Ht. reflexivity. }
  split; [exact Ht|].
  change 2 with (2 * 1). rewrite (Ht 1) by lia. rewrite every_nth_one.
  reflexivity.
Qed.

Lemma slice_messages_even_step_witness :
  exists ms,
    map m_id ms = [Some "<w1@mail.example>"; Some "<w2@mail.example>";
                   Some "<w3@mail.example>"; Some "<w4@mail.example>"]
    /\ fst (slice_messages Sample.server 0 (Some 1) (Some 4) "Work" 2 Sample.start)
       = Ok (GotMessages ms).
Proof.
  eexists. split; [|
    apply (slice_messages_even_step Sample.server 0 Sample.start "Work"
             (Sample.folder "Work" (map Sample.mail ["w1"; "w2"; "w3"; "w4"]))
             ["INBOX"; "Work"] 1 4);
    [ reflexivity | reflexivity | simpl; auto | reflexivity
    | repeat split; reflexivity | vm_compute; discriminate
    | vm_compute; discriminate | vm_compute; discriminate
    | repeat (apply Forall2_cons; [vm_compute; reflexivity|]); apply Forall2_nil ] ].
  reflexivity.
Defined.

(** X14: over a range inside the folder, [slice_messages] with an odd step
    returns every [step]-th message of the range, the first one
    included. *)
Theorem slice_messages_odd_step :
  forall {R : Runtime} (srv : Server) (fuel : nat) (e : env) (f : string)
         (fd : Folder) (boxes : list string) (start stop step : Z)
         (ms : list Message),
    stable e ->
    fst (get_mailboxes srv fuel e) = Ok boxes -> In f boxes ->
    find_folder srv f = Some fd -> serves srv ->
    1 <= start -> start <= stop -> stop <= count fd ->
    parsed f (between (fd_msgs fd) start stop) ms ->
    1 <= step -> step mod 2 = 1 ->
    fst (slice_messages srv fuel (Some start) (Some stop) f step e)
    = Ok (GotMessages (every_nth step ms)).
Proof.
  intros R srv fuel e f fd boxes start stop step ms
         H Hb Hin Hfd Hs H1 H2 H3 Hp Hstep Hodd.
  pose proof (listed srv fuel e boxes H Hb) as Hl.
  rewrite (slice_messages_in_range srv fuel e f fd boxes start stop step ms
             H Hl Hin Hfd Hs H1 H2 H3 Hp) by lia.
  rewrite stride_from_at_stride, at_stride_odd by assumption. reflexivity.
Qed.

Lemma slice_messages_odd_step_witness :
  exists ms,
    map m_id (every_nth 3 ms)
    = [Some "<w1@mail.example>"; Some "<w4@mail.example>"]
    /\ fst (slice_messages Sample.server 0 (Some 1) (Some 4) "Work" 3 Sample.start)
       = Ok (GotMessages (every_nth 3 ms)).
Proof.
  eexists. split; [|
    apply (slice_messages_odd_step Sample.server 0 Sample.start "Work"
             (Sample.folder "Work" (map Sample.mail ["w1"; "w2"; "w3"; "w4"]))
             ["INBOX"; "Work"] 1 4 3);
    [ reflexivity | reflexivity | simpl; auto | reflexivity
    | repeat split; reflexivity | vm_compute; discriminate
    | vm_compute; discriminate | vm_compute; discriminate
    | repeat (apply Forall2_cons; [vm_compute; reflexivity|]); apply Forall2_nil
    | vm_compute; discriminate | reflexivity ] ].
  reflexivity.
Defined.

(** ** Indexing a mailer *)

(** X15: indexing a mailer with a slice that leaves out its start, as in
    [mailer[:n]], raises [TypeError]: [slice_messages] selects the default
    folder and then compares the missing bound with 0. *)
Theorem Mailer_getitem_slice_without_start :
  forall {R : Runtime} (srv : Server) (fuel : nat) (e : env)
         (boxes : list string) (stop step : option Z),
    stable e ->
    fst (get_mailboxes srv fuel e) = Ok boxes ->
    In (default_box (self e)) boxes ->
    Mailer_getitem srv fuel (KSlice None stop step) e
    = (Raise (TypeError
               "'<=' not supported between instances of 'NoneType' and 'int'"),
       select_in (chosen srv (default_box (self e))) e).
Proof.
  intros R srv fuel e boxes stop step H Hb Hin.
  pose proof (listed srv fuel e boxes H Hb) as Hl.
  unfold Mailer_getitem, bind. rewrite slice_messages_eq.
  unfold try_abort_locals, bind, in_env. reduce_run.
  rewrite (get_mailboxes_stable srv fuel e H), Hl. reduce_run.
  rewrite (proj2 (mem_In _ boxes) Hin). reduce_run.
  rewrite (cmd_select_stable srv _ e H). reflexivity.
Qed.

Lemma Mailer_getitem_slice_without_start_witness :
  Mailer_getitem Sample.server 0 (KSlice None (Some 5) None) Sample.start
  = (Raise (TypeError
               "'<=' not supported between instances of 'NoneType' and 'int'"),
     Sample.start).
Proof.
  apply (Mailer_getitem_slice_without_start Sample.server 0 Sample.start
           ["INBOX"; "Work"] (Some 5) None);
    [ reflexivity | reflexivity | simpl; auto ].
Defined.

(** X16: indexing a mailer with a name that is [inbox] in any letter case
    is indexing it with [INBOX]: on a live session it returns the folder
    view [INBOX] when [get_mailboxes()] lists [INBOX], and raises the
    [KeyError] of [__getitem__] otherwise; the session is not changed. *)
Theorem Mailer_getitem_inbox_any_case :
  forall {R : Runtime} (srv : Server) (fuel : nat) (e : env)
         (boxes : list string) (s : string),
    stable e ->
    fst (get_mailboxes srv fuel e) = Ok boxes ->
    lower s = "inbox" ->
    Mailer_getitem srv fuel (KStr s) e = Mailer_getitem srv fuel (KStr "INBOX") e
    /\ (In "INBOX" boxes ->
          Mailer_getitem srv fuel (KStr s) e = (Ok (IMailBox "INBOX"), e))
    /\ (~ In "INBOX" boxes ->
          Mailer_getitem srv fuel (KStr s) e
          = (Raise (KeyError (err_text (default_box (self e)))), e)).
Proof.
  intros R srv fuel e boxes s H Hb Hs.
  pose proof (listed srv fuel e boxes H Hb) as Hl.
  unfold Mailer_getitem, bind. rewrite Hs.
  change (lower "INBOX") with "inbox". cbn [String.eqb Ascii.eqb Bool.eqb].
  rewrite (get_mailboxes_stable srv fuel e H), Hl. reduce_run.
  split; [reflexivity|]. split; intro Hin.
  - rewrite (proj2 (mem_In _ boxes) Hin). reflexivity.
  - rewrite (mem_not_In _ boxes Hin). reflexivity.
Qed.

Lemma Mailer_getitem_inbox_any_case_witness :
  Mailer_getitem Sample.server 0 (KStr "InBox") Sample.start
  = (Ok (IMailBox "INBOX"), Sample.start).
Proof.
  destruct (Mailer_getitem_inbox_any_case Sample.server 0 Sample.start
              ["INBOX"; "Work"] "InBox") as [_ [Hin _]];
    [ reflexivity | reflexivity | reflexivity | ].
  apply Hin. simpl; auto.
Defined.

(** ** Folder views *)

(** X17: for a folder of the account, on a live session, [len(mailbox)] is
    the number of messages of the folder and [str(mailbox)] shows that
    number after the folder name; [mailbox.serialize()] returns the empty
    list for an empty folder and raises [AttributeError] for any other, its
    items being sequence numbers.  All three leave the default folder
    selected. *)
Theorem MailBox_len_and_serialize :
  forall {R : Runtime} (srv : Server) (fuel : nat) (e : env) (f : string)
         (fd d : Folder) (boxes : list string),
    stable e ->
    fst (get_mailboxes srv fuel e) = Ok boxes -> In f boxes ->
    find_folder srv f = Some fd ->
    find_folder srv (default_box (self e)) = Some d ->
    srv_refuses srv SELECT = false -> srv_refuses srv SEARCH = false ->
    let after := select_in (Some (default_box (self e))) e in
    MailBox_len srv fuel f e = (Ok (count fd), after)
    /\ MailBox_str srv fuel f e
       = (Ok ("MailBox_" ++ f ++ "(" ++ str_of_Z (count fd) ++ " messages)"),
          after)
    /\ (fd_msgs fd = [] -> MailBox_serialize srv fuel f e = (Ok [], after))
    /\ (fd_msgs fd <> [] ->
          MailBox_serialize srv fuel f e
          = (Raise (AttributeError "'int' object has no attribute 'serialize'"),
             after)).
Proof.
  intros R srv fuel e f fd d boxes H Hb Hin Hfd Hd Hsel Hsea after.
  pose proof (listed srv fuel e boxes H Hb) as Hl.
  pose proof (get_messages_run srv fuel e f fd boxes H Hl
                (proj2 (mem_In f boxes) Hin) Hfd Hsel) as Hrun.
  assert (Hch : chosen srv (default_box (self e)) = Some (default_box (self e)))
    by (unfold chosen; rewrite Hd, Hsel; reflexivity).
  rewrite Hch in Hrun. fold after in Hrun.
  unfold MailBox_str, MailBox_len, MailBox_serialize, MailBox_messages, bind.
  rewrite Hrun. reduce_run.
  unfold ret. reduce_run. rewrite (len_search_of srv fd Hsea).
  split; [reflexivity|]. split; [reflexivity|].
  unfold search_of. rewrite Hsea. unfold numbers.
  split; intro Hm.
  - rewrite Hm. reflexivity.
  - destruct (fd_msgs fd) as [|raw tl]; [contradiction|reflexivity].
Qed.

Lemma MailBox_len_and_serialize_witness :
  MailBox_len Sample.server 0 "Work" Sample.start = (Ok 4, Sample.start)
  /\ MailBox_serialize Sample.server 0 "Work" Sample.start
     = (Raise (AttributeError "'int' object has no attribute 'serialize'"),
        Sample.start).
Proof.
  destruct (MailBox_len_and_serialize Sample.server 0 Sample.start "Work"
              (Sample.folder "Work" (map Sample.mail ["w1"; "w2"; "w3"; "w4"]))
              (Sample.folder "INBOX" Sample.ten) ["INBOX"; "Work"])
    as [Hlen [_ [_ Hser]]];
    [ reflexivity | reflexivity | simpl; auto | reflexivity | reflexivity
    | reflexivity | reflexivity | ].
  split; [exact Hlen|]. apply Hser. discriminate.
Defined.

(** ** Messages *)

(** X18: [Message.serialize()] never fails: it returns the eight keys of
    [keys], in that order, each with the text [str] gives for the field
    (the text [None] for a missing header or body). *)
Theorem Message_serialize_fixed_keys :
  forall {R : Runtime} (m : Message),
    Message_serialize m
    = Ok [("id", fstr (m_id m)); ("From", fstr (m_From m));
          ("To", fstr (m_To m)); ("subject", fstr (m_subject m));
          ("date_sent", str_datetime (m_date_sent m));
          ("date_received", str_datetime (m_date_received m));
          ("attachments", py_str (VAttachments (m_attachments m)));
          ("body", fstr (m_body m))]
    /\ exists kv, Message_serialize m = Ok kv /\ map fst kv = keys.
Proof.
  intros R m. split; [reflexivity|].
  eexists. split; reflexivity.
Qed.

(** X19: a payload without a Received header cannot be made a [Message]:
    when its Date header parses, the constructor raises [AttributeError]
    (the header value is [None], which has no [split]). *)
Theorem Message_init_needs_received :
  forall {R : Runtime} (raw : EmailMessage) (mailbox : option string)
         (sent : datetime),
    hdr_received raw = None ->
    parsedate_to_datetime (hdr_date raw) = Some sent ->
    Message_init raw mailbox
    = Raise (AttributeError "'NoneType' object has no attribute 'split'").
Proof.
  intros R raw mailbox sent Hr Hd.
  unfold Message_init, parse_date. rewrite Hd, Hr. reflexivity.
Qed.

Lemma Message_init_needs_received_witness :
  Message_init Cases.local_mail (Some "Drafts")
  = Raise (AttributeError "'NoneType' object has no attribute 'split'").
Proof.
  apply (@Message_init_needs_received Sample.runtime Cases.local_mail
           (Some "Drafts") "Tue, 02 Jan 2024 09:00:00 +0000");
    reflexivity.
Defined.

Section Bodies.
Context {R : Runtime}.

Lemma first_plain_none ps :
  Forall (fun p => content_type p <> "text/plain") ps ->
  first_plain ps = Ok None.
Proof.
  induction 1 as [|p tl Hp _ IH]; [reflexivity|].
  cbn [first_plain]. rewrite (proj2 (String.eqb_neq _ _) Hp). exact IH.
Qed.

End Bodies.

(** X20: a multipart payload with no [text/plain] part whose dates parse
    becomes a [Message] without body, which keeps the named parts as
    attachments; [repr] of that message raises [TypeError]
    ([len(self.body)] on [None]), and [str] of it is [format_long()]
    followed by a newline. *)
Theorem Message_without_plain_text :
  forall {R : Runtime} (raw : EmailMessage) (mailbox : option string)
         (ps : list Part) (m : Message),
    content raw = Multipart ps ->
    Forall (fun p => content_type p <> "text/plain") ps ->
    Message_init raw mailbox = Ok m ->
    m_body m = None
    /\ m_attachments m = named_parts ps
    /\ Message_repr m = Raise (TypeError "object of type 'NoneType' has no len()")
    /\ Message_str m = format_long m ++ nl.
Proof.
  intros R raw mailbox ps m Hc Hps Hm.
  unfold Message_init in Hm.
  destruct (parse_date (hdr_date raw)) as [sent|x]; [|discriminate Hm].
  cbn [obind] in Hm.
  destruct (match hdr_received raw with
            | Some r => parse_date (Some (split_last ";" (split_last "; " r)))
            | None => Raise (AttributeError "'NoneType' object has no attribute 'split'")
            end) as [received|x]; [|discriminate Hm].
  cbn [obind] in Hm.
  unfold _get_body, _get_attachments in Hm. rewrite Hc in Hm.
  rewrite (first_plain_none ps Hps) in Hm. cbn [obind] in Hm.
  inversion Hm; subst m; clear Hm.
  split; [reflexivity|]. split; [reflexivity|]. split; [reflexivity|].
  unfold Message_str, format_short, format_long. cbn [m_body truthy].
  rewrite append_assoc3. reflexivity.
Qed.

Lemma Message_without_plain_text_witness :
  exists m,
    Message_init Cases.html_mail (Some "INBOX") = Ok m
    /\ m_body m = None
    /\ m_attachments m = [("logo.png", "PNG1"); ("logo.png", "PNG2")]
    /\ Message_repr m = Raise (TypeError "object of type 'NoneType' has no len()").
Proof.
  exists Cases.html_message. split; [reflexivity|].
  destruct (Message_without_plain_text Cases.html_mail (Some "INBOX")
              [ {| content_type := "text/html"; part_filename := None;
                   part_payload := "<p>hello</p>" |};
                {| content_type := "image/png"; part_filename := Some "logo.png";
                   part_payload := "PNG1" |};
                {| content_type := "image/png"; part_filename := Some "logo.png";
                   part_payload := "PNG2" |} ] Cases.html_message eq_refl)
    as [Hb [Ha [Hr _]]];
    [ repeat (apply Forall_cons; [discriminate|]); apply Forall_nil
    | reflexivity | ].
  split; [exact Hb|]. split; [exact Ha|exact Hr].
Defined.

(** ** Saving attachments: edge cases *)

(** X21: a payload that is not multipart yields a [Message] without
    attachments, and [save_attachments] on it writes nothing and returns
    the empty list, whatever the directory, the format and the keyword
    arguments. *)
Theorem save_attachments_of_single_part :
  forall {R : Runtime} (raw : EmailMessage) (mailbox : option string)
         (b : bytes) (m : Message) (directory name_format : string)
         (format_kwargs : list (string * string)) (fs : filesystem),
    content raw = Single b ->
    Message_init raw mailbox = Ok m ->
    m_attachments m = []
    /\ save_attachments m directory name_format format_kwargs fs = (Ok [], fs).
Proof.
  intros R raw mailbox b m directory name_format format_kwargs fs Hc Hm.
  assert (Ha : m_attachments m = []).
  { unfold Message_init in Hm.
    destruct (parse_date (hdr_date raw)) as [sent|x]; [|discriminate Hm].
    cbn [obind] in Hm.
    destruct (match hdr_received raw with
              | Some r => parse_date (Some (split_last ";" (split_last "; " r)))
              | None => Raise (AttributeError "'NoneType' object has no attribute 'split'")
              end) as [received|x]; [|discriminate Hm].
    cbn [obind] in Hm.
    destruct (_get_body raw) as [body|x]; [|discriminate Hm].
    cbn [obind] in Hm. inversion Hm; subst m.
    unfold _get_attachments. cbn [m_attachments]. rewrite Hc. reflexivity. }
  split; [exact Ha|].
  unfold save_attachments. rewrite Ha. reflexivity.
Qed.

Lemma save_attachments_of_single_part_witness :
  exists m,
    Message_init (Sample.mail "m1") (Some "INBOX") = Ok m
    /\ save_attachments m "/nowhere" "{oops" [] Sample.disk = (Ok [], Sample.disk).
Proof.
  eexists. split; [reflexivity|].
  eapply (save_attachments_of_single_part (Sample.mail "m1") (Some "INBOX")
            "body m1");
    reflexivity.
Defined.

Section SavingEdges.
Context {R : Runtime}.

Lemma save_each_stops m directory local a post :
  short_id m = Ok local ->
  forall pre fs,
    (forall x, In x pre ->
       fs_writable fs (path_join directory (local ++ "_" ++ fst x)) = true) ->
    fs_writable fs (path_join directory (local ++ "_" ++ fst a)) = false ->
    save_each m directory default_name_format [] (pre ++ a :: post) fs
    = (Raise (OSError (path_join directory (local ++ "_" ++ fst a))),
       written directory (fun x => local ++ "_" ++ fst x) pre fs).
Proof.
  intros Hs. induction pre as [|[filename data] tl IH]; intros fs Hw Ha.
  - destruct a as [filename data]. cbn [app save_each fst] in *.
    unfold bind, lift. rewrite Hs. reduce_run.
    rewrite format_default. reduce_run.
    unfold write_file. rewrite Ha. reflexivity.
  - cbn [app save_each]. unfold bind, lift. rewrite Hs. reduce_run.
    rewrite format_default. reduce_run.
    pose proof (Hw (filename, data) (or_introl eq_refl)) as Hhere.
    cbn [fst] in Hhere.
    assert (Hwr : write_file (path_join directory (local ++ "_" ++ filename)) data fs
                  = (Ok tt, snd (write_file (path_join directory (local ++ "_" ++ filename)) data fs))).
    { unfold write_file. rewrite Hhere. reflexivity. }
    rewrite Hwr. reduce_run.
    rewrite IH.
    + reflexivity.
    + intros x Hx. rewrite write_file_writable. apply Hw. right; exact Hx.
    + rewrite write_file_writable. exact Ha.
Qed.

End SavingEdges.

(** X22: with the default format, when an attachment cannot be written,
    [save_attachments] raises the error of that file; the attachments
    before it stay written and those after it are not attempted. *)
Theorem save_attachments_stops_at_failure :
  forall {R : Runtime} (m : Message) (directory local rest : string)
         (pre post : list (string * bytes)) (a : string * bytes)
         (fs : filesystem),
    m_id m = Some ("<" ++ local ++ "@" ++ rest) ->
    has_char "@" local = false ->
    m_attachments m = (pre ++ a :: post)%list ->
    (forall x, In x pre ->
       fs_writable fs (path_join directory (local ++ "_" ++ fst x)) = true) ->
    fs_writable fs (path_join directory (local ++ "_" ++ fst a)) = false ->
    save_attachments m directory default_name_format [] fs
    = (Raise (OSError (path_join directory (local ++ "_" ++ fst a))),
       written directory (fun x => local ++ "_" ++ fst x) pre fs).
Proof.
  intros R m directory local rest pre post a fs Hid Hl Hatt Hw Ha.
  unfold save_attachments. rewrite Hatt.
  apply save_each_stops; try assumption.
  exact (short_id_of_bracketed m local rest Hid Hl).
Qed.

Lemma save_attachments_stops_at_failure_witness :
  save_attachments
    {| m_id := Some "<abc123@mail.example>"; m_From := None; m_To := None;
       m_subject := None; m_date_sent := "d"; m_date_received := "d";
       m_body := None;
       m_attachments := [("a.txt", "A"); ("b.txt", "B"); ("c.txt", "C")];
       m_mailbox_name := None |}
    "/tmp/out" default_name_format [] Cases.small_disk
  = (Raise (OSError "/tmp/out/abc123_b.txt"),
     {| fs_writable := fs_writable Cases.small_disk;
        fs_files := [("/tmp/out/abc123_a.txt", "A")] |}).
Proof.
  apply (save_attachments_stops_at_failure _ "/tmp/out" "abc123" "mail.example>"
           [("a.txt", "A")] [("c.txt", "C")] ("b.txt", "B") Cases.small_disk);
    [ reflexivity | reflexivity | reflexivity | | reflexivity ].
  intros x [Hx|[]]. subst x. reflexivity.
Defined.

(** X23: with the default format, two attachments of the same name are
    written to the same file: both names are returned and the file holds
    the data of the second attachment. *)
Theorem save_attachments_same_name :
  forall {R : Runtime} (m : Message) (directory local rest name : string)
         (d1 d2 : bytes) (fs : filesystem),
    m_id m = Some ("<" ++ local ++ "@" ++ rest) ->
    has_char "@" local = false ->
    m_attachments m = [(name, d1); (name, d2)] ->
    fs_writable fs (path_join directory (local ++ "_" ++ name)) = true ->
    fst (save_attachments m directory default_name_format [] fs)
    = Ok [local ++ "_" ++ name; local ++ "_" ++ name]
    /\ read_file (snd (save_attachments m directory default_name_format [] fs))
                 (path_join directory (local ++ "_" ++ name))
       = Some d2.
Proof.
  intros R m directory local rest name d1 d2 fs Hid Hl Hatt Hw.
  pose proof (short_id_of_bracketed m local rest Hid Hl) as Hs.
  unfold save_attachments. rewrite Hatt.
  rewrite (save_each_default m directory local Hs).
  - cbn [map fst snd written fold_left].
    split; [reflexivity|].
    unfold write_file at 1. unfold write_file at 1. rewrite Hw.
    cbn [snd fs_writable]. rewrite Hw. cbn [snd fs_files].
    unfold read_file. cbn [find fst fs_files]. rewrite String.eqb_refl.
    reflexivity.
  - intros x [Hx|[Hx|[]]]; subst x; exact Hw.
Qed.

Lemma save_attachments_same_name_witness :
  exists m,
    Message_init Cases.html_mail (Some "INBOX") = Ok m
    /\ fst (save_attachments m "/tmp/out" default_name_format [] Sample.disk)
       = Ok ["html1_logo.png"; "html1_logo.png"]
    /\ read_file (snd (save_attachments m "/tmp/out" default_name_format []
                         Sample.disk))
                 "/tmp/out/html1_logo.png"
       = Some "PNG2".
Proof.
  exists Cases.html_message. split; [reflexivity|].
  apply (save_attachments_same_name Cases.html_message "/tmp/out" "html1"
           "mail.example>"
           "logo.png" "PNG1" "PNG2" Sample.disk);
    reflexivity.
Defined.

Lemma repeated_keyword_found (format_kwargs : list (string * string)) :
  In "short_id" (map fst format_kwargs) \/ In "name" (map fst format_kwargs) ->
  exists k, repeated_keyword format_kwargs = Some k
            /\ (k = "short_id" \/ k = "name")
            /\ In k (map fst format_kwargs).
Proof.
  intros Hk. unfold repeated_keyword.
  destruct (find _ (map fst format_kwargs)) as [k|] eqn:Hf.
  - exists k. apply find_some in Hf. destruct Hf as [Hin Hp].
    split; [reflexivity|]. split; [|exact Hin].
    apply orb_true_iff in Hp.
    destruct Hp as [Hp|Hp]; apply String.eqb_eq in Hp; auto.
  - exfalso. destruct Hk as [Hk|Hk];
      pose proof (find_none _ _ Hf _ Hk) as Hn; cbv beta in Hn;
      rewrite String.eqb_refl in Hn; [|rewrite orb_true_r in Hn];
      discriminate.
Qed.

(** X24: on a message that has attachments, [save_attachments] writes
    nothing and raises [AttributeError] when the message has no
    Message-ID; when it has one and [format_kwargs] holds the keyword
    [short_id] or [name], which the call already passes, it writes
    nothing and raises the [TypeError] of [str.format] that names the
    first such keyword of [format_kwargs]. *)
Theorem save_attachments_rejects_before_writing :
  forall {R : Runtime} (m : Message) (directory name_format : string)
         (format_kwargs : list (string * string)) (fs : filesystem)
         (a : string * bytes) (tl : list (string * bytes)),
    m_attachments m = a :: tl ->
    (m_id m = None ->
       save_attachments m directory name_format format_kwargs fs
       = (Raise (AttributeError "'NoneType' object has no attribute 'split'"), fs))
    /\ (m_id m <> None ->
          In "short_id" (map fst format_kwargs)
          \/ In "name" (map fst format_kwargs) ->
          exists k,
            repeated_keyword format_kwargs = Some k
            /\ (k = "short_id" \/ k = "name")
            /\ In k (map fst format_kwargs)
            /\ save_attachments m directory name_format format_kwargs fs
               = (Raise (TypeError
                           ("str.format() got multiple values for keyword argument '"
                              ++ k ++ "'")), fs)).
Proof.
  intros R m directory name_format format_kwargs fs [filename data] tl Hatt.
  unfold save_attachments. rewrite Hatt. cbn [save_each].
  unfold bind, lift, short_id. split.
  - intros ->. reflexivity.
  - intros Hid Hk. destruct (m_id m) as [i|]; [|contradiction].
    destruct (repeated_keyword_found format_kwargs Hk) as (k & Hr & Hn & Hin).
    exists k. split; [exact Hr|]. split; [exact Hn|]. split; [exact Hin|].
    reduce_run. unfold format_name. rewrite Hr. reflexivity.
Qed.

Lemma save_attachments_rejects_before_writing_witness :
  save_attachments Sample.report_message "/tmp/out" default_name_format
                   [("name", "x")] Sample.disk
  = (Raise (TypeError
              "str.format() got multiple values for keyword argument 'name'"),
     Sample.disk).
Proof.
  destruct (save_attachments_rejects_before_writing Sample.report_message
              "/tmp/out" default_name_format [("name", "x")] Sample.disk
              ("report.pdf", "%PDF-1.4") [] eq_refl) as [_ Hk].
  destruct Hk as (k & Hr & _ & _ & Hs);
    [discriminate | right; simpl; auto |].
  injection Hr as <-. exact Hs.
Defined.
